(** * My_Health_App4: health evaluator and log store

    A shallow embedding of [My_Health_App4.py]: the diagnosis block
    (BMI, ideal weight and the three judgments), the CSV-backed log
    ([load_log], [save_log]), the re-judgment done for the PDF report and
    the data handed to the trend chart.

    Python floats are IEEE 754 binary64 numbers and are modelled as such,
    through the executable specification of [SpecFloat] at precision 53 and
    maximal exponent 1024.  Python exceptions are modelled by an error
    monad.  The text layer of pandas ([to_csv], [read_csv]) is abstracted:
    the backing file holds the table that [read_csv] returns for it. *)

From Stdlib Require Import ZArith Bool Lia Ascii String.
From Stdlib Require Import Floats.SpecFloat.
From stdpp Require Import list strings.

(** ** Binary64 arithmetic *)

Definition float : Set := spec_float.

Module F64.

Definition prec : Z := 53.
Definition emax : Z := 1024.


Definition mul : float -> float -> float := SFmul prec emax.
Definition div : float -> float -> float := SFdiv prec emax.
Definition sub : float -> float -> float := SFsub prec emax.
Definition abs : float -> float := SFabs.
Definition ltb : float -> float -> bool := SFltb.
Definition leb : float -> float -> bool := SFleb.

Definition opp : float -> float := SFopp.

Definition zero : float := S754_zero false.
Definition nan : float := S754_nan.

(** The float nearest to [n / d] (ties to even), with sign [s]; this is
    how a decimal literal or an integer becomes a float. *)
Definition of_ratio (s : bool) (n d : Z) : float :=
  match n with
  | Z0 => S754_zero s
  | _ =>
      let '(q, e, l) := SFdiv_core_binary prec emax n 0 d 0 in
      binary_round_aux prec emax s q e l
  end.

Definition of_Z (z : Z) : float := of_ratio (z <? 0)%Z (Z.abs z) 1.

(** The literal with digits [n] and [k] digits after the point. *)
Definition dec (n : Z) (k : nat) : float :=
  of_ratio (n <? 0)%Z (Z.abs n) (10 ^ Z.of_nat k).

End F64.

Declare Scope float_scope.
Delimit Scope float_scope with F.
Infix "*" := F64.mul : float_scope.
Infix "/" := F64.div : float_scope.
Infix "-" := F64.sub : float_scope.
Infix "<?" := F64.ltb : float_scope.
Infix "<=?" := F64.leb : float_scope.

(** ** Python values, exceptions and results *)

Inductive value :=
  | VStr (s : string)
  | VFloat (x : float).

(** pandas marks a missing cell by the float NaN. *)
Definition NaN : value := VFloat F64.nan.

Inductive exn :=
  | ZeroDivisionError
  | OverflowError
  | TypeError
  | KeyError (k : string)
  | IndexError
  | ParserError
  | ValueError.

Inductive result (A : Type) :=
  | Ok (a : A)
  | Raise (e : exn).
Arguments Ok {A} a.
Arguments Raise {A} e.

#[global] Instance result_ret : MRet result := @Ok.
#[global] Instance result_bind : MBind result := fun A B f r =>
  match r with
  | Ok a => f a
  | Raise e => Raise e
  end.

Definition raises {A} (r : result A) : Prop :=
  match r with
  | Ok _ => False
  | Raise _ => True
  end.

(** [x ** 2] on a float: the square, rounded; CPython turns an overflow of
    a finite base into [OverflowError]. *)
Definition float_pow2 (x : float) : result float :=
  let r := (x * x)%F in
  match x, r with
  | S754_finite _ _ _, S754_infinity _ => Raise OverflowError
  | _, _ => Ok r
  end.

(** [a / b] on floats: CPython raises [ZeroDivisionError] for a zero
    divisor of either sign. *)
Definition float_truediv (a b : float) : result float :=
  match b with
  | S754_zero _ => Raise ZeroDivisionError
  | _ => Ok (a / b)%F
  end.

(** [n / d] rounded to the nearest integer, ties to even ([0 <= n], [0 < d]). *)
Definition round_half_even_div (n d : Z) : Z :=
  let q := (n / d)%Z in
  match (2 * (n mod d) ?= d)%Z with
  | Lt => q
  | Gt => (q + 1)%Z
  | Eq => if Z.even q then q else (q + 1)%Z
  end.

(** [round(x, 2)]: the exact binary value is rounded to two decimals (ties
    to even) and the decimal is converted back to the nearest float;
    infinities and NaN round to themselves. *)
Definition py_round2 (x : float) : float :=
  match x with
  | S754_finite s m e =>
      let n :=
        match e with
        | Zneg k => round_half_even_div (100 * Zpos m) (2 ^ Zpos k)
        | _ => (100 * Zpos m * 2 ^ e)%Z
        end in
      F64.of_ratio s n 100
  | _ => x
  end.

(** [v == s] for a string literal [s]. *)
Definition py_eq_str (v : value) (s : string) : bool :=
  match v with
  | VStr t => bool_decide (t = s)
  | VFloat _ => false
  end.

(** A value used as a number; a string operand makes the arithmetic and
    the comparisons of the report block raise [TypeError]. *)
Definition as_float (v : value) : result float :=
  match v with
  | VFloat x => Ok x
  | VStr _ => Raise TypeError
  end.

(** ** Health evaluator (the diagnosis block) *)

Definition c18_5 : float := F64.dec 185 1.
Definition c25 : float := F64.of_Z 25.
Definition c30 : float := F64.of_Z 30.
Definition c85 : float := F64.of_Z 85.
Definition c90 : float := F64.of_Z 90.
Definition c22 : float := F64.of_Z 22.
Definition c0_1 : float := F64.dec 1 1.

Definition bmi_msg (bmi : float) : string :=
  if (bmi <? c18_5)%F then "やせ型"
  else if (bmi <? c25)%F then "標準体型"
  else if (bmi <? c30)%F then "肥満（1度）"
  else "高度肥満".

Definition waist_msg (waist : float) (gender : value) : string :=
  if (if py_eq_str gender "男性" then (waist <? c85)%F else (waist <? c90)%F)
  then "正常"
  else "メタボの可能性あり".

Definition weight_msg (weight ideal_weight : float) : string :=
  let diff := (weight - ideal_weight)%F in
  if (F64.abs diff <=? ideal_weight * c0_1)%F then "標準体型"
  else if (weight <? ideal_weight)%F then "やせ型"
  else "太り気味".

Record Diagnosis := {
  d_bmi : float;
  d_ideal_weight : float;
  d_weight_msg : string;
  d_bmi_msg : string;
  d_waist_msg : string
}.

Definition diagnose (height weight waist : float) (gender : value)
  : result Diagnosis :=
  bmi ← (h2 ← float_pow2 height; float_truediv weight h2);
  ideal_weight ← (h2 ← float_pow2 height; Ok (c22 * h2)%F);
  Ok {| d_bmi := bmi;
        d_ideal_weight := ideal_weight;
        d_weight_msg := weight_msg weight ideal_weight;
        d_bmi_msg := bmi_msg bmi;
        d_waist_msg := waist_msg waist gender |}.

(** The form fixes the height. *)
Definition form_height : float := F64.dec 173 2.

(** ** Log store *)

(** A table: column labels and rows of cells, one cell per column. *)
Record DataFrame := {
  columns : list string;
  rows : list (list value)
}.

(** The backing file [bmi_log.csv]: missing, present but not readable as a
    table, or holding a table. *)
Inductive file :=
  | Absent
  | Unparseable
  | Stored (df : DataFrame).

Definition activity_columns : list string :=
  ["ランニング(km)"; "自転車(km)"; "水泳(km)"].

Definition canonical_columns : list string :=
  ["日時"; "身長(m)"; "体重(kg)"; "腹囲(cm)"; "BMI"; "性別";
   "ランニング(km)"; "自転車(km)"; "水泳(km)"].

(** Position of the first column labelled [c]. *)
Fixpoint index_of (c : string) (cols : list string) : option nat :=
  match cols with
  | [] => None
  | c' :: cols' => if decide (c' = c) then Some 0%nat else S <$> index_of c cols'
  end.

(** The cell of row [r] under the label [c]. *)
Definition cell (cols : list string) (r : list value) (c : string)
  : option value :=
  j ← index_of c cols; r !! j.

(** The cell of the table at row [i] under the label [c]. *)
Definition cell_at (df : DataFrame) (i : nat) (c : string) : option value :=
  r ← rows df !! i; cell (columns df) r c.

(** [df[col] = v] for a label that is not a column yet. *)
Definition add_column (df : DataFrame) (col : string) (v : value) : DataFrame :=
  {| columns := columns df ++ [col];
     rows := (fun r => r ++ [v]) <$> rows df |}.

(** One turn of the loop of [load_log]: a missing column is added, filled
    with [0.0]. *)
Definition backfill_column (df : DataFrame) (col : string) : DataFrame :=
  if bool_decide (col ∉ columns df)
  then add_column df col (VFloat F64.zero)
  else df.

Definition load_log (fs : file) : result DataFrame :=
  match fs with
  | Stored df => Ok (foldl backfill_column df activity_columns)
  | Unparseable => Raise ParserError
  | Absent => Ok {| columns := canonical_columns; rows := [] |}
  end.

(** A Python dict with string keys, in insertion order. *)
Definition dict := list (string * value).

Fixpoint dict_get (k : string) (d : dict) : option value :=
  match d with
  | [] => None
  | (k', v) :: d' => if decide (k' = k) then Some v else dict_get k d'
  end.

(** [pd.DataFrame([entry])]. *)
Definition frame_of_record (entry : dict) : DataFrame :=
  {| columns := entry.*1; rows := [entry.*2] |}.

(** A row laid out on other columns; a column it does not have is NaN. *)
Definition reindex (old new : list string) (r : list value) : list value :=
  (fun c => default NaN (cell old r c)) <$> new.

(** [pd.concat([df1, df2], ignore_index=True)]: the columns of [df1], then
    the new ones of [df2]; the rows of [df1], then those of [df2]. *)
Definition concat (df1 df2 : DataFrame) : DataFrame :=
  let cols := columns df1 ++ filter (fun c => c ∉ columns df1) (columns df2) in
  {| columns := cols;
     rows := (reindex (columns df1) cols <$> rows df1)
             ++ (reindex (columns df2) cols <$> rows df2) |}.

Definition save_log (fs : file) (entry : dict) : result file :=
  df ← load_log fs;
  let df := concat df (frame_of_record entry) in
  Ok (Stored df).

Definition log_entry (now : string) (height weight waist bmi : float)
    (gender : string) (run bike swim : float) : dict :=
  [("日時", VStr now); ("身長(m)", VFloat height); ("体重(kg)", VFloat weight);
   ("腹囲(cm)", VFloat waist); ("BMI", VFloat (py_round2 bmi));
   ("性別", VStr gender);
   ("ランニング(km)", VFloat run); ("自転車(km)", VFloat bike);
   ("水泳(km)", VFloat swim)].

(** The [if submitted:] block: diagnose, then append to the log. *)
Definition on_submit (fs : file) (now : string) (weight waist : float)
    (gender : string) (run bike swim : float) : result (file * Diagnosis) :=
  let height := form_height in
  d ← diagnose height weight waist (VStr gender);
  fs' ← save_log fs
          (log_entry now height weight waist (d_bmi d) gender run bike swim);
  Ok (fs', d).

(** ** Report and chart *)

(** A row taken out of a table, with its labels. *)
Record Series := {
  index : list string;
  values : list value
}.

(** [df.iloc[-1]]. *)
Definition iloc_last (df : DataFrame) : result Series :=
  match last (rows df) with
  | Some r => Ok {| index := columns df; values := r |}
  | None => Raise IndexError
  end.

(** [s[k]]. *)
Definition series_get (s : Series) (k : string) : result value :=
  match cell (index s) (values s) k with
  | Some v => Ok v
  | None => Raise (KeyError k)
  end.

Record Judgment := {
  j_weight_msg : string;
  j_bmi_msg : string;
  j_waist_msg : string
}.

(** The re-judgment of the PDF block, on the latest row of the log.  The
    cells are read by label; a numeric cell is a float, and a string cell
    where a number is needed raises [TypeError]. *)
Definition pdf_rejudge (df : DataFrame) : result Judgment :=
  latest ← iloc_last df;
  weight ← series_get latest "体重(kg)";
  waist ← series_get latest "腹囲(cm)";
  height ← series_get latest "身長(m)";
  bmi ← series_get latest "BMI";
  gender ← series_get latest "性別";
  ideal_weight ← (h ← as_float height; h2 ← float_pow2 h; Ok (c22 * h2)%F);
  bmi_msg ← (b ← as_float bmi; Ok (bmi_msg b));
  waist_msg ← (w ← as_float waist; Ok (waist_msg w gender));
  weight_msg ← (w ← as_float weight; Ok (weight_msg w ideal_weight));
  Ok {| j_weight_msg := weight_msg;
        j_bmi_msg := bmi_msg;
        j_waist_msg := waist_msg |}.

(** [df.tail(n)]. *)
Definition df_tail (n : nat) (df : DataFrame) : DataFrame :=
  {| columns := columns df;
     rows := drop (length (rows df) - n) (rows df) |}.

(** [df[c]]: the cells of a column, top to bottom. *)
Definition column_values (df : DataFrame) (c : string) : result (list value) :=
  match index_of c (columns df) with
  | Some _ => Ok ((fun r => default NaN (cell (columns df) r c)) <$> rows df)
  | None => Raise (KeyError c)
  end.

Fixpoint result_mapM {A B} (f : A -> result B) (l : list A) : result (list B) :=
  match l with
  | [] => Ok []
  | a :: l' => b ← f a; bs ← result_mapM f l'; Ok (b :: bs)
  end.

Section Chart.

(** [pd.to_datetime] on one cell is a parameter of the chart. *)
Context {datetime : Type} (to_datetime : value -> result datetime).

(** The points handed to [ax.plot], in plotting order. *)
Definition generate_bmi_plot (df : DataFrame)
  : result (list (datetime * value)) :=
  let df_plot := df_tail 10 df in
  xs ← (ts ← column_values df_plot "日時"; result_mapM to_datetime ts);
  ys ← column_values df_plot "体重(kg)";
  Ok (zip xs ys).

End Chart.

(** A reader for the timestamps the app writes, [%Y-%m-%d %H:%M]: the
    digits are read as the number [YYYYMMDDHHMM], which orders such
    timestamps as dates.  It stands for [pd.to_datetime] where the chart is
    evaluated on an example. *)
Definition digit_of (a : ascii) : option Z :=
  let n := Z.of_N (Ascii.N_of_ascii a) in
  if ((48 <=? n) && (n <=? 57))%Z then Some (n - 48)%Z else None.

Fixpoint stamp_digits (s : string) (acc : Z) : option Z :=
  match s with
  | EmptyString => Some acc
  | String a s' =>
      match digit_of a with
      | Some d => stamp_digits s' (10 * acc + d)%Z
      | None =>
          if bool_decide (a = "-"%char ∨ a = " "%char ∨ a = ":"%char)
          then stamp_digits s' acc
          else None
      end
  end.

Definition stamp_to_datetime (v : value) : result Z :=
  match v with
  | VStr s =>
      match stamp_digits s 0 with
      | Some n => Ok n
      | None => Raise ValueError
      end
  | VFloat _ => Raise TypeError
  end.

(** ** Reference definitions for the statements *)

(** The waist threshold of each gender label, in cm. *)
Definition waist_threshold (gender : string) : float :=
  if decide (gender = "男性") then c85 else c90.

(** The columns that [load_log] does not backfill. *)
Definition mandatory_columns : list string :=
  ["日時"; "身長(m)"; "体重(kg)"; "腹囲(cm)"; "BMI"; "性別"].

(** Every row has one cell per column. *)
Definition full_width (df : DataFrame) : Prop :=
  Forall (fun r => length r = length (columns df)) (rows df).

(** The shape of the tables pandas builds: distinct column labels and
    rows of full width. *)
Definition wf (df : DataFrame) : Prop :=
  NoDup (columns df) /\ full_width df.

(** A list in ascending order. *)
Definition ascending {A} (le : A -> A -> Prop) (l : list A) : Prop :=
  forall i j a b, (i < j)%nat -> l !! i = Some a -> l !! j = Some b -> le a b.

(** A table written before the height, waist, BMI, gender and activity
    columns existed. *)
Definition legacy_table : DataFrame :=
  {| columns := ["日時"; "体重(kg)"];
     rows := [[VStr "2024-01-01 10:00"; VFloat (F64.dec 660 1)]] |}.

(** A log whose second row carries the earlier timestamp. *)
Definition unsorted_log : DataFrame :=
  {| columns := ["日時"; "体重(kg)"];
     rows := [[VStr "2024-01-02 10:00"; VFloat (F64.dec 660 1)];
              [VStr "2024-01-01 10:00"; VFloat (F64.dec 665 1)]] |}.

(** ** The log section of the page *)

(** [df.empty]: no rows or no columns. *)
Definition df_empty (df : DataFrame) : bool :=
  match rows df, columns df with
  | [], _ | _, [] => true
  | _, _ => false
  end.

Section LogSection.

Context {datetime : Type} (to_datetime : value -> result datetime).

(** What goes into the PDF: the fields of the latest row, the three
    judgments and the points of the chart. *)
Record Report := {
  report_fields : list (string * value);
  report_judgment : Judgment;
  report_points : list (datetime * value)
}.

(** What the log section of the page shows: the notice that there is no
    record yet, or the recent rows, the table offered for download and,
    when the PDF button was pressed, the report. *)
Inductive log_view :=
  | NoRecords
  | Records (recent download : DataFrame) (report : option Report).

Definition log_section (fs : file) (pdf_button : bool) : result log_view :=
  df ← load_log fs;
  if negb (df_empty df) then
    let recent := df_tail 10 df in
    if pdf_button then
      latest ← iloc_last df;
      judgment ← pdf_rejudge df;
      points ← generate_bmi_plot to_datetime df;
      Ok (Records recent df
            (Some {| report_fields := zip (index latest) (values latest);
                     report_judgment := judgment;
                     report_points := points |}))
    else Ok (Records recent df None)
  else Ok NoRecords.

End LogSection.

(** ** Further reference definitions *)

(** The order of the BMI labels, lightest first. *)
Definition bmi_rank (label : string) : nat :=
  if decide (label = "やせ型") then 0
  else if decide (label = "標準体型") then 1
  else if decide (label = "肥満（1度）") then 2
  else 3.

(** A float that is zero, finite or infinite with the sign bit clear, or
    NaN: nothing below zero. *)
Definition unsigned (x : float) : Prop :=
  match x with
  | S754_zero s | S754_infinity s | S754_finite s _ _ => s = false
  | S754_nan => True
  end.

(** A log file that, when it holds a table, holds a well-formed one. *)
Definition file_wf (fs : file) : Prop :=
  match fs with
  | Stored df => wf df
  | _ => True
  end.

(** The columns the report reads from the latest row. *)
Definition report_columns : list string :=
  ["体重(kg)"; "腹囲(cm)"; "身長(m)"; "BMI"; "性別"].

(** * Properties *)

(** ** Order on floats *)

Lemma SFcompare_antisym (x y : float) :
  SFcompare y x = CompOpp <$> SFcompare x y.
Proof.
  destruct x as [[]|[]| |[] m1 e1], y as [[]|[]| |[] m2 e2]; simpl; try reflexivity.
  all: rewrite (Z.compare_antisym e1 e2); destruct (e1 ?= e2)%Z; simpl; try reflexivity.
  all: rewrite !Pos.compare_cont_spec; simpl; rewrite (Pos.compare_antisym m1 m2);
    destruct (m1 ?= m2)%positive; reflexivity.
Qed.

Lemma leb_not_ltb (x y : float) : (x <=? y)%F = true -> (y <? x)%F = false.
Proof.
  unfold F64.leb, F64.ltb, SFleb, SFltb.
  rewrite (SFcompare_antisym x y).
  destruct (SFcompare x y) as [[]|]; simpl; congruence.
Qed.

Lemma SFcompare_Lt_trans (x y z : float) :
  SFcompare x y = Some Lt -> SFcompare y z = Some Lt -> SFcompare x z = Some Lt.
Proof.
  destruct x as [[]|[]| |[] m1 e1], y as [[]|[]| |[] m2 e2], z as [[]|[]| |[] m3 e3];
    simpl; try congruence.
  all: rewrite ?Pos.compare_cont_spec; simpl.
  all: destruct (Z.compare_spec e1 e2), (Z.compare_spec e2 e3), (Z.compare_spec e1 e3);
    try congruence; try lia.
  all: destruct (Pos.compare_spec m1 m2), (Pos.compare_spec m2 m3), (Pos.compare_spec m1 m3);
    simpl; try congruence; try lia.
Qed.

Lemma ltb_trans (x y z : float) :
  (x <? y)%F = true -> (y <? z)%F = true -> (x <? z)%F = true.
Proof.
  unfold F64.ltb, SFltb. intros Hxy Hyz.
  destruct (SFcompare x y) as [[]|] eqn:E1; try discriminate.
  destruct (SFcompare y z) as [[]|] eqn:E2; try discriminate.
  now rewrite (SFcompare_Lt_trans x y z E1 E2).
Qed.

(** A value at or above a bound is not below a smaller bound. *)
Lemma above_not_below (lo hi x : float) :
  (lo <? hi)%F = true -> (hi <=? x)%F = true -> (x <? lo)%F = false.
Proof.
  intros Hlh Hx. destruct (x <? lo)%F eqn:E; [|reflexivity].
  pose proof (ltb_trans _ _ _ E Hlh) as T.
  rewrite (leb_not_ltb _ _ Hx) in T. discriminate.
Qed.

(** ** Rounding of binary64 operations

    The mantissa of a result is obtained by shifting the exact mantissa
    right and rounding it.  This section shows that products of valid floats
    are valid floats and that a difference of valid floats is negative
    exactly when the first one is the smaller one. *)

Section Binary64.

Local Open Scope Z_scope.




Lemma shr_1_m (mrs : shr_record) :
  0 <= shr_m mrs -> shr_m (shr_1 mrs) = shr_m mrs / 2.
Proof.
  destruct mrs as [m r s]. simpl. intros Hm.
  destruct m as [|[p|p|]|p]; simpl; try lia; try reflexivity.
  - rewrite Pos2Z.inj_xI. apply (Z.div_unique _ 2 (Zpos p) 1); lia.
  - rewrite Pos2Z.inj_xO. apply (Z.div_unique _ 2 (Zpos p) 0); lia.
Qed.

Lemma pow2_xO (p : positive) : 2 ^ Zpos p~0 = 2 ^ Zpos p * 2 ^ Zpos p.
Proof. rewrite <- Z.pow_add_r by lia. f_equal. lia. Qed.

Lemma pow2_xI (p : positive) : 2 ^ Zpos p~1 = 2 * (2 ^ Zpos p * 2 ^ Zpos p).
Proof.
  rewrite <- Z.pow_add_r by lia. rewrite <- (Z.pow_succ_r 2) by lia. f_equal. lia.
Qed.

Lemma pow2_pos (k : Z) : 0 <= k -> 0 < 2 ^ k.
Proof. intros. apply Z.pow_pos_nonneg; lia. Qed.

Lemma iter_pos_shr_m (p : positive) (mrs : shr_record) :
  0 <= shr_m mrs ->
  shr_m (SpecFloat.iter_pos shr_1 p mrs) = shr_m mrs / 2 ^ Zpos p.
Proof.
  revert mrs. induction p as [p IH|p IH|]; intros mrs Hm; simpl SpecFloat.iter_pos.
  - assert (H1 : 0 <= shr_m (shr_1 mrs)) by (rewrite shr_1_m by lia; apply Z.div_pos; lia).
    assert (H2 : 0 <= shr_m (SpecFloat.iter_pos shr_1 p (shr_1 mrs)))
      by (rewrite IH by lia; apply Z.div_pos; [lia|apply pow2_pos; lia]).
    pose proof (pow2_pos (Zpos p) ltac:(lia)).
    rewrite IH, IH, shr_1_m by lia.
    rewrite !Z.div_div by lia.
    now rewrite pow2_xI.
  - assert (H2 : 0 <= shr_m (SpecFloat.iter_pos shr_1 p mrs))
      by (rewrite IH by lia; apply Z.div_pos; [lia|apply pow2_pos; lia]).
    pose proof (pow2_pos (Zpos p) ltac:(lia)).
    rewrite IH, IH by lia.
    rewrite !Z.div_div by lia.
    now rewrite pow2_xO.
  - rewrite shr_1_m by lia. reflexivity.
Qed.

Lemma shr_record_of_loc_m (m : Z) (l : location) :
  shr_m (shr_record_of_loc m l) = m.
Proof. destruct l as [|[]]; reflexivity. Qed.


(** [shr_fexp] divides the mantissa by the power of two that brings the
    exponent up to [fexp]. *)
Lemma shr_fexp_spec (m e : Z) (l : location) :
  0 <= m ->
  let n := Z.max 0 (fexp F64.prec F64.emax (Zdigits2 m + e) - e) in
  shr_m (fst (shr_fexp F64.prec F64.emax m e l)) = m / 2 ^ n /\
  snd (shr_fexp F64.prec F64.emax m e l) = e + n.
Proof.
  intros Hm n. unfold shr_fexp, shr. subst n.
  destruct (fexp F64.prec F64.emax (Zdigits2 m + e) - e) as [|p|p] eqn:E;
    simpl fst; simpl snd.
  - rewrite shr_record_of_loc_m. simpl. rewrite Z.div_1_r. split; lia.
  - rewrite iter_pos_shr_m by (rewrite shr_record_of_loc_m; lia).
    rewrite shr_record_of_loc_m. split; [reflexivity|lia].
  - rewrite shr_record_of_loc_m. simpl. rewrite Z.div_1_r. split; lia.
Qed.

Lemma round_nearest_even_bounds (mrs : shr_record) :
  shr_m mrs <= round_nearest_even (shr_m mrs) (loc_of_shr_record mrs) <= shr_m mrs + 1.
Proof.
  destruct mrs as [m [] []]; simpl; try lia.
  destruct (Z.even m); lia.
Qed.

















End Binary64.

(** ** Results of the diagnosis *)

Lemma bind_Ok {A B} (r : result A) (f : A -> result B) (b : B) :
  r ≫= f = Ok b <-> exists a, r = Ok a /\ f a = Ok b.
Proof.
  destruct r as [a|e]; simpl; split.
  - intros H. exists a. split; [reflexivity|exact H].
  - intros (a' & [= ->] & H). exact H.
  - discriminate.
  - intros (a' & [=] & _).
Qed.

Lemma py_eq_str_true (v : value) (s : string) :
  py_eq_str v s = true <-> v = VStr s.
Proof.
  destruct v as [t|x]; simpl.
  - rewrite bool_decide_eq_true. split; [intros ->; reflexivity|intros [= ->]; reflexivity].
  - split; discriminate.
Qed.

Lemma diagnose_Ok (height weight waist : float) (gender : value) (d : Diagnosis) :
  diagnose height weight waist gender = Ok d ->
  exists h2, float_pow2 height = Ok h2 /\
    float_truediv weight h2 = Ok (d_bmi d) /\
    d = {| d_bmi := d_bmi d;
           d_ideal_weight := (c22 * h2)%F;
           d_weight_msg := weight_msg weight (c22 * h2)%F;
           d_bmi_msg := bmi_msg (d_bmi d);
           d_waist_msg := waist_msg waist gender |}.
Proof.
  unfold diagnose. intros H.
  apply bind_Ok in H as (bmi & Hbmi & H).
  apply bind_Ok in Hbmi as (h2 & Hh2 & Hbmi).
  rewrite Hh2 in H. simpl in H. injection H as <-.
  exists h2. simpl. auto.
Qed.

(** When [x ** 2] does not raise, it is the rounded square. *)
Lemma float_pow2_Ok (x h2 : float) : float_pow2 x = Ok h2 -> h2 = (x * x)%F.
Proof.
  unfold float_pow2.
  destruct x as [| | |s m e]; try (intros [= <-]; reflexivity).
  destruct (S754_finite s m e * S754_finite s m e)%F; congruence.
Qed.

(** The first scenario of the specification: 1.73 m, 66 kg, waist 83 cm,
    male. *)
Example diagnose_66kg :
  exists d,
    diagnose form_height (F64.dec 660 1) (F64.dec 830 1) (VStr "男性") = Ok d /\
    py_round2 (d_bmi d) = F64.dec 2205 2 /\
    d_bmi_msg d = "標準体型" /\ d_weight_msg d = "標準体型" /\
    d_waist_msg d = "正常".
Proof. eexists. repeat split; vm_compute; reflexivity. Qed.

(** The second scenario: 1.73 m, 90 kg, waist 95 cm, male. *)
Example diagnose_90kg :
  exists d,
    diagnose form_height (F64.dec 900 1) (F64.dec 950 1) (VStr "男性") = Ok d /\
    py_round2 (d_bmi d) = F64.dec 3007 2 /\
    d_bmi_msg d = "高度肥満" /\ d_weight_msg d = "太り気味" /\
    d_waist_msg d = "メタボの可能性あり".
Proof. eexists. repeat split; vm_compute; reflexivity. Qed.

(** ** BMI category *)

(** C1: the BMI category is "yase-gata" (underweight) below 18.5, "hyoujun"
    (normal) from 18.5 inclusive to 25 exclusive, "himan 1-do" (obese class
    1) from 25 inclusive to 30 exclusive and "koudo himan" (severely obese)
    from 30 on; the bounds 18.5, 25 and 30 themselves fall in the upper
    range; the diagnosis applies this rule to the BMI it computes. *)
Theorem bmi_msg_ranges (bmi : float) :
  ((bmi <? c18_5)%F = true -> bmi_msg bmi = "やせ型") /\
  ((c18_5 <=? bmi)%F = true -> (bmi <? c25)%F = true ->
   bmi_msg bmi = "標準体型") /\
  ((c25 <=? bmi)%F = true -> (bmi <? c30)%F = true ->
   bmi_msg bmi = "肥満（1度）") /\
  ((c30 <=? bmi)%F = true -> bmi_msg bmi = "高度肥満") /\
  bmi_msg c18_5 = "標準体型" /\
  bmi_msg c25 = "肥満（1度）" /\
  bmi_msg c30 = "高度肥満" /\
  (forall height weight waist gender d,
     diagnose height weight waist gender = Ok d ->
     d_bmi_msg d = bmi_msg (d_bmi d)).
Proof.
  assert (H1 : (c18_5 <? c25)%F = true) by reflexivity.
  assert (H2 : (c25 <? c30)%F = true) by reflexivity.
  assert (H3 : (c18_5 <? c30)%F = true) by reflexivity.
  assert (Hd : forall height weight waist gender d,
             diagnose height weight waist gender = Ok d ->
             d_bmi_msg d = bmi_msg (d_bmi d)).
  { intros height weight waist gender d H.
    apply diagnose_Ok in H as (h2 & _ & _ & ->). reflexivity. }
  unfold bmi_msg. repeat split; [| | | |exact Hd].
  - intros ->. reflexivity.
  - intros Hlo ->. now rewrite (leb_not_ltb _ _ Hlo).
  - intros Hlo ->.
    now rewrite (above_not_below _ _ _ H1 Hlo), (leb_not_ltb _ _ Hlo).
  - intros Hlo.
    now rewrite (above_not_below _ _ _ H3 Hlo), (above_not_below _ _ _ H2 Hlo),
      (leb_not_ltb _ _ Hlo).
Qed.

Lemma bmi_msg_ranges_witness :
  bmi_msg (F64.dec 1849 2) = "やせ型" /\
  bmi_msg (F64.dec 2206 2) = "標準体型" /\
  bmi_msg (F64.dec 2999 2) = "肥満（1度）" /\
  bmi_msg (F64.dec 3008 2) = "高度肥満".
Proof.
  split; [|split; [|split]].
  - apply (proj1 (bmi_msg_ranges (F64.dec 1849 2))). reflexivity.
  - apply (proj1 (proj2 (bmi_msg_ranges (F64.dec 2206 2)))); reflexivity.
  - apply (proj1 (proj2 (proj2 (bmi_msg_ranges (F64.dec 2999 2))))); reflexivity.
  - apply (proj1 (proj2 (proj2 (proj2 (bmi_msg_ranges (F64.dec 3008 2)))))).
    reflexivity.
Defined.

(** ** Waist judgment *)

(** C2: for male and female, the waist judgment compares the waist with the
    threshold of the gender, 85 cm for male and 90 cm for female: "seijou"
    (normal) below the threshold, "metabo no kanousei ari" (metabolic risk)
    at or above it; male 85.0 is at risk, male 84.999 is normal, female
    90.0 is at risk; this is the waist judgment of the diagnosis. *)
Theorem waist_msg_threshold (waist : float) (gender : string) :
  gender = "男性" \/ gender = "女性" ->
  (F64.zero <=? waist)%F = true ->
  (waist_threshold "男性" = c85 /\ waist_threshold "女性" = c90) /\
  ((waist <? waist_threshold gender)%F = true ->
   waist_msg waist (VStr gender) = "正常") /\
  ((waist_threshold gender <=? waist)%F = true ->
   waist_msg waist (VStr gender) = "メタボの可能性あり") /\
  waist_msg c85 (VStr "男性") = "メタボの可能性あり" /\
  waist_msg (F64.dec 84999 3) (VStr "男性") = "正常" /\
  waist_msg c90 (VStr "女性") = "メタボの可能性あり" /\
  (forall height weight d,
     diagnose height weight waist (VStr gender) = Ok d ->
     d_waist_msg d = waist_msg waist (VStr gender)).
Proof.
  intros Hg _. split; [split; reflexivity|].
  assert (Hd : forall height weight d,
             diagnose height weight waist (VStr gender) = Ok d ->
             d_waist_msg d = waist_msg waist (VStr gender)).
  { intros height weight d H.
    apply diagnose_Ok in H as (h2 & _ & _ & ->). reflexivity. }
  assert (Hm : forall w, waist_msg w (VStr "男性") =
                 if (w <? c85)%F then "正常" else "メタボの可能性あり")
    by reflexivity.
  assert (Hf : forall w, waist_msg w (VStr "女性") =
                 if (w <? c90)%F then "正常" else "メタボの可能性あり")
    by reflexivity.
  split; [|split; [|repeat split; exact Hd]].
  - destruct Hg as [-> | ->].
    + change (waist_threshold "男性") with c85. rewrite Hm. now intros ->.
    + change (waist_threshold "女性") with c90. rewrite Hf. now intros ->.
  - destruct Hg as [-> | ->].
    + change (waist_threshold "男性") with c85. rewrite Hm.
      intros H. now rewrite (leb_not_ltb _ _ H).
    + change (waist_threshold "女性") with c90. rewrite Hf.
      intros H. now rewrite (leb_not_ltb _ _ H).
Qed.

Lemma waist_msg_threshold_witness :
  waist_msg (F64.dec 830 1) (VStr "男性") = "正常" /\
  waist_msg (F64.dec 950 1) (VStr "男性") = "メタボの可能性あり" /\
  waist_msg (F64.dec 870 1) (VStr "女性") = "正常".
Proof.
  split; [|split].
  - apply (waist_msg_threshold (F64.dec 830 1) "男性"); [left|..]; reflexivity.
  - apply (waist_msg_threshold (F64.dec 950 1) "男性"); [left|..]; reflexivity.
  - apply (waist_msg_threshold (F64.dec 870 1) "女性"); [right|..]; reflexivity.
Defined.

(** C10: whatever the gender value is, as long as it is not the male
    label, the waist is judged against 90 cm, in the diagnosis block and in
    the re-judgment of the report alike; the judgment is defined for every
    gender value. *)
Theorem waist_msg_not_male (waist : float) (gender : value) :
  gender <> VStr "男性" ->
  let judged := if (waist <? c90)%F then "正常" else "メタボの可能性あり" in
  waist_msg waist gender = judged /\
  (forall height weight d,
     diagnose height weight waist gender = Ok d -> d_waist_msg d = judged) /\
  (forall df latest j,
     iloc_last df = Ok latest ->
     series_get latest "腹囲(cm)" = Ok (VFloat waist) ->
     series_get latest "性別" = Ok gender ->
     pdf_rejudge df = Ok j ->
     j_waist_msg j = judged).
Proof.
  intros Hg judged.
  assert (Hw : waist_msg waist gender = judged).
  { unfold waist_msg, judged.
    destruct (py_eq_str gender "男性") eqn:E.
    - apply py_eq_str_true in E. contradiction.
    - destruct (waist <? c90)%F; reflexivity. }
  split; [exact Hw|split].
  - intros height weight d Hd.
    apply diagnose_Ok in Hd as (h2 & _ & _ & ->). exact Hw.
  - intros df latest j Hl Hwaist Hgender Hj. unfold pdf_rejudge in Hj.
    rewrite Hl in Hj. simpl in Hj.
    apply bind_Ok in Hj as (weight & _ & Hj).
    rewrite Hwaist in Hj. simpl in Hj.
    apply bind_Ok in Hj as (height & _ & Hj).
    apply bind_Ok in Hj as (bmi & _ & Hj).
    rewrite Hgender in Hj. simpl in Hj.
    apply bind_Ok in Hj as (ideal & _ & Hj).
    apply bind_Ok in Hj as (bm & _ & Hj).
    apply bind_Ok in Hj as (wm & _ & Hj).
    injection Hj as <-. exact Hw.
Qed.

Lemma waist_msg_not_male_witness :
  waist_msg (F64.dec 870 1) (VStr "その他") = "正常".
Proof.
  assert (H : VStr "その他" <> VStr "男性") by discriminate.
  exact (proj1 (waist_msg_not_male (F64.dec 870 1) (VStr "その他") H)).
Defined.

(** ** Weight deviation *)



(** ** Height is not validated *)

Lemma float_pow2_opp (x : float) : float_pow2 (F64.opp x) = float_pow2 x.
Proof. destruct x as [[]|[]| |[] m e]; reflexivity. Qed.

(** C7 (amended): the diagnosis does not check the height.  A negative
    height is diagnosed exactly as its opposite; a zero height makes the
    BMI division raise ZeroDivisionError; every height whose square is a
    finite non-zero float, the 1.73 of the form among them, is diagnosed
    without any exception. *)
Theorem diagnose_height_unchecked (height weight waist : float) (gender : value) :
  diagnose (F64.opp height) weight waist gender
    = diagnose height weight waist gender /\
  (forall s, diagnose (S754_zero s) weight waist gender = Raise ZeroDivisionError) /\
  (forall s m e, (height * height)%F = S754_finite s m e ->
     exists d, diagnose height weight waist gender = Ok d) /\
  (exists d, diagnose form_height weight waist gender = Ok d).
Proof.
  split; [|split; [|split]].
  - unfold diagnose. now rewrite float_pow2_opp.
  - intros []; reflexivity.
  - intros s m e H. unfold diagnose, float_pow2.
    rewrite H. destruct height; simpl; eauto.
  - unfold diagnose. eexists. reflexivity.
Qed.

Lemma diagnose_height_unchecked_witness :
  exists d,
    diagnose form_height (F64.dec 660 1) (F64.dec 830 1) (VStr "男性") = Ok d.
Proof.
  destruct (diagnose_height_unchecked form_height (F64.dec 660 1)
              (F64.dec 830 1) (VStr "男性")) as (_ & _ & H & _).
  eapply H. reflexivity.
Defined.

(** The height -1.73 is diagnosed without error. *)
Lemma diagnose_negative_height :
  (F64.dec (-173) 2 <=? F64.zero)%F = true /\
  ~ raises (diagnose (F64.dec (-173) 2) (F64.dec 660 1) (F64.dec 830 1)
              (VStr "男性")).
Proof. split; [reflexivity|]. vm_compute. tauto. Qed.

(** The arithmetic itself can raise on a positive height: the square of
    1e200 overflows, the square of 1e-200 is zero. *)
Lemma diagnose_extreme_height :
  diagnose (F64.of_ratio false (10 ^ 200) 1) (F64.dec 660 1) (F64.dec 830 1)
    (VStr "男性") = Raise OverflowError /\
  diagnose (F64.of_ratio false 1 (10 ^ 200)) (F64.dec 660 1) (F64.dec 830 1)
    (VStr "男性") = Raise ZeroDivisionError.
Proof. split; vm_compute; reflexivity. Qed.

(** ** Columns and cells *)

Lemma index_of_None (c : string) (cols : list string) :
  index_of c cols = None <-> c ∉ cols.
Proof.
  induction cols as [|c' cols IH]; simpl.
  - split; [intros _; apply not_elem_of_nil|reflexivity].
  - rewrite not_elem_of_cons. destruct (decide (c' = c)) as [->|Hne].
    + split; [discriminate|intros [? _]; congruence].
    + destruct (index_of c cols); simpl.
      * split; [discriminate|]. intros [_ H]. apply IH in H. discriminate.
      * split; [|reflexivity]. intros _. split; [congruence|]. now apply IH.
Qed.

Lemma index_of_Some (c : string) (cols : list string) (j : nat) :
  index_of c cols = Some j -> cols !! j = Some c.
Proof.
  revert j. induction cols as [|c' cols IH]; simpl; [discriminate|].
  intros j. destruct (decide (c' = c)) as [->|Hne].
  - intros [= <-]. reflexivity.
  - destruct (index_of c cols) as [k|]; simpl; [|discriminate].
    intros [= <-]. simpl. now apply IH.
Qed.

Lemma index_of_is_Some (c : string) (cols : list string) :
  c ∈ cols <-> is_Some (index_of c cols).
Proof.
  destruct (index_of c cols) eqn:E.
  - split; [eauto|intros _]. destruct (decide (c ∈ cols)) as [|H]; [assumption|].
    apply index_of_None in H. congruence.
  - apply index_of_None in E. split; [contradiction|intros [? [=]]].
Qed.

Lemma index_of_app_l (c : string) (l l' : list string) (j : nat) :
  index_of c l = Some j -> index_of c (l ++ l') = Some j.
Proof.
  revert j. induction l as [|c' l IH]; simpl; [discriminate|].
  intros j. destruct (decide (c' = c)); [trivial|].
  destruct (index_of c l) as [k|]; simpl; [|discriminate].
  intros [= <-]. now rewrite (IH k).
Qed.

Lemma index_of_app_r (c : string) (l l' : list string) :
  c ∉ l -> index_of c (l ++ l') = (fun j => length l + j)%nat <$> index_of c l'.
Proof.
  induction l as [|c' l IH]; simpl.
  - intros _. now destruct (index_of c l').
  - rewrite not_elem_of_cons. intros [Hne Hnin].
    destruct (decide (c' = c)); [congruence|].
    rewrite (IH Hnin). now destruct (index_of c l').
Qed.


Lemma cell_Some_elem (cols : list string) (r : list value) (c : string) (v : value) :
  cell cols r c = Some v -> c ∈ cols.
Proof.
  unfold cell. intros H. apply index_of_is_Some.
  destruct (index_of c cols); [eauto|discriminate].
Qed.

Lemma cell_app_old (cols extra : list string) (r pad : list value)
    (c : string) (v : value) :
  cell cols r c = Some v -> cell (cols ++ extra) (r ++ pad) c = Some v.
Proof.
  unfold cell. destruct (index_of c cols) as [j|] eqn:E; simpl; [|discriminate].
  intros Hj. rewrite (index_of_app_l _ _ _ _ E). simpl.
  now apply lookup_app_l_Some.
Qed.

Lemma cell_app_new (cols : list string) (r : list value) (c : string) (v : value) :
  c ∉ cols -> length r = length cols ->
  cell (cols ++ [c]) (r ++ [v]) c = Some v.
Proof.
  intros Hnin Hlen. unfold cell. rewrite (index_of_app_r _ _ _ Hnin). simpl.
  rewrite decide_True by reflexivity. simpl.
  rewrite Nat.add_0_r, <- Hlen. now rewrite list_lookup_middle.
Qed.

(** A row laid out on new columns shows, under each of them, the cell it
    had under that label. *)
Lemma cell_reindex (old new : list string) (r : list value) (c : string) :
  c ∈ new -> cell new (reindex old new r) c = Some (default NaN (cell old r c)).
Proof.
  unfold cell at 1, reindex. intros Hin.
  apply index_of_is_Some in Hin as [j Hj]. rewrite Hj. simpl.
  rewrite list_lookup_fmap, (index_of_Some _ _ _ Hj). reflexivity.
Qed.


Lemma cell_frame_of_record (entry : dict) (k : string) :
  cell entry.*1 entry.*2 k = dict_get k entry.
Proof.
  unfold cell. induction entry as [|[k' v] entry IH]; [reflexivity|].
  rewrite !fmap_cons. cbn [index_of dict_get fst snd].
  destruct (decide (k' = k)); [reflexivity|].
  rewrite <- IH. destruct (index_of k entry.*1); reflexivity.
Qed.

(** ** Backfill on load *)

(** Membership in a list that is written out. *)
Ltac in_list :=
  solve [repeat (apply elem_of_cons; first [left; reflexivity | right])].
Ltac cases_in_list H :=
  repeat (apply elem_of_cons in H as [->|H]); [..|now apply elem_of_nil in H].
Ltac not_in_list H :=
  repeat (apply elem_of_cons in H as [H|H]; [discriminate H|]);
  now apply elem_of_nil in H.

Lemma backfill_column_columns (df : DataFrame) (col c : string) :
  c ∈ columns (backfill_column df col) <-> c ∈ columns df \/ c = col.
Proof.
  unfold backfill_column. case_bool_decide as H; simpl.
  - rewrite elem_of_app, list_elem_of_singleton. reflexivity.
  - split; [auto|]. intros [?| ->]; assumption.
Qed.

Lemma backfill_column_length (df : DataFrame) (col : string) :
  length (rows (backfill_column df col)) = length (rows df).
Proof.
  unfold backfill_column. case_bool_decide; simpl; [|reflexivity].
  apply length_fmap.
Qed.

Lemma backfill_column_keeps (df : DataFrame) (col : string) i c v :
  cell_at df i c = Some v -> cell_at (backfill_column df col) i c = Some v.
Proof.
  unfold backfill_column. case_bool_decide; simpl; [|trivial].
  unfold cell_at. simpl. rewrite list_lookup_fmap.
  destruct (rows df !! i) as [r|]; simpl; [|discriminate].
  apply cell_app_old.
Qed.

Lemma backfill_column_full_width (df : DataFrame) (col : string) :
  full_width df -> full_width (backfill_column df col).
Proof.
  unfold backfill_column, full_width. case_bool_decide; simpl; [|trivial].
  intros Hall. apply Forall_fmap. eapply Forall_impl; [exact Hall|].
  intros r Hr. simpl. rewrite !length_app, Hr. reflexivity.
Qed.

Lemma backfill_column_zero (df : DataFrame) (col : string) (i : nat) :
  full_width df -> col ∉ columns df -> (i < length (rows df))%nat ->
  cell_at (backfill_column df col) i col = Some (VFloat F64.zero).
Proof.
  intros Hw Hnin Hi. unfold backfill_column. rewrite bool_decide_eq_true_2 by assumption.
  unfold cell_at. simpl. rewrite list_lookup_fmap.
  destruct (lookup_lt_is_Some_2 _ _ Hi) as [r Hr]. rewrite Hr. simpl.
  apply cell_app_new; [assumption|].
  eapply (proj1 (Forall_lookup _ _) Hw). eassumption.
Qed.

Lemma backfill_columns (cols : list string) (df : DataFrame) (c : string) :
  c ∈ columns (foldl backfill_column df cols) <-> c ∈ columns df \/ c ∈ cols.
Proof.
  revert df. induction cols as [|col cs IH]; intros df; simpl.
  - rewrite elem_of_nil. tauto.
  - rewrite IH, backfill_column_columns, elem_of_cons. tauto.
Qed.

Lemma backfill_length (cols : list string) (df : DataFrame) :
  length (rows (foldl backfill_column df cols)) = length (rows df).
Proof.
  revert df. induction cols as [|col cs IH]; intros df; simpl; [reflexivity|].
  now rewrite IH, backfill_column_length.
Qed.

Lemma backfill_keeps (cols : list string) (df : DataFrame) i c v :
  cell_at df i c = Some v ->
  cell_at (foldl backfill_column df cols) i c = Some v.
Proof.
  revert df. induction cols as [|col cs IH]; intros df; simpl; [trivial|].
  intros H. apply IH. now apply backfill_column_keeps.
Qed.

Lemma backfill_full_width (cols : list string) (df : DataFrame) :
  full_width df -> full_width (foldl backfill_column df cols).
Proof.
  revert df. induction cols as [|col cs IH]; intros df; simpl; [trivial|].
  intros H. apply IH. now apply backfill_column_full_width.
Qed.

Lemma backfill_zero (cols : list string) (df : DataFrame) (c : string) (i : nat) :
  full_width df -> c ∈ cols -> c ∉ columns df -> (i < length (rows df))%nat ->
  cell_at (foldl backfill_column df cols) i c = Some (VFloat F64.zero).
Proof.
  revert df. induction cols as [|col cs IH]; intros df Hw Hin Hnin Hi; simpl.
  - now apply elem_of_nil in Hin.
  - destruct (decide (c = col)) as [->|Hne].
    + apply backfill_keeps. now apply backfill_column_zero.
    + apply elem_of_cons in Hin as [?|Hin]; [contradiction|].
      apply IH; [now apply backfill_column_full_width|assumption| |].
      * rewrite backfill_column_columns. tauto.
      * now rewrite backfill_column_length.
Qed.

(** Nothing is added to a table that has the columns already. *)
Lemma backfill_present (cols : list string) (df : DataFrame) :
  cols ⊆ columns df -> foldl backfill_column df cols = df.
Proof.
  induction cols as [|col cs IH]; intros Hsub; simpl; [reflexivity|].
  assert (backfill_column df col = df) as ->.
  { unfold backfill_column. rewrite bool_decide_eq_false_2; [reflexivity|].
    intros H. apply H, Hsub. left. }
  apply IH. intros c Hc. apply Hsub. now right.
Qed.

Lemma load_log_activity (fs : file) (df : DataFrame) :
  load_log fs = Ok df -> activity_columns ⊆ columns df.
Proof.
  destruct fs as [| |df0]; unfold load_log; [|discriminate|].
  - intros [= <-] c Hc. cases_in_list Hc; cbn [columns]; in_list.
  - intros [= <-] c Hc.
    apply (proj2 (backfill_columns activity_columns df0 c)). now right.
Qed.

(** C6: when the backing file does not exist, loading gives a log with no
    rows and the nine canonical columns: timestamp, height, weight, waist,
    BMI, gender and the three activity columns. *)
Theorem load_log_absent :
  exists df, load_log Absent = Ok df /\ rows df = [] /\
    columns df = ["日時"; "身長(m)"; "体重(kg)"; "腹囲(cm)"; "BMI"; "性別";
                  "ランニング(km)"; "自転車(km)"; "水泳(km)"].
Proof. eexists. split; [reflexivity|]. split; reflexivity. Qed.

(** C5 (amended): loading a stored table adds each of the three activity
    columns that the table lacks, with 0.0 in every row, and keeps every
    stored cell and the number of rows; it adds no other column, so the
    loaded log has the full canonical column set exactly when the stored
    table has the six other columns. *)
Theorem load_log_backfill (df : DataFrame) :
  full_width df ->
  exists df', load_log (Stored df) = Ok df' /\
    length (rows df') = length (rows df) /\
    (forall c, c ∈ columns df' <-> c ∈ columns df \/ c ∈ activity_columns) /\
    (forall c i, c ∈ activity_columns -> c ∉ columns df ->
                 (i < length (rows df))%nat ->
                 cell_at df' i c = Some (VFloat F64.zero)) /\
    (forall i c v, cell_at df i c = Some v -> cell_at df' i c = Some v) /\
    (canonical_columns ⊆ columns df' <-> mandatory_columns ⊆ columns df).
Proof.
  intros Hw. eexists. split; [reflexivity|].
  split; [apply backfill_length|].
  split; [intros c; apply backfill_columns|].
  split; [intros c i Hc Hnin Hi; now apply backfill_zero|].
  split; [intros i c v; apply backfill_keeps|].
  split; intros Hsub c Hc.
  - assert (Hcan : c ∈ canonical_columns) by (cases_in_list Hc; in_list).
    apply Hsub, backfill_columns in Hcan as [?|Hact]; [assumption|].
    exfalso. cases_in_list Hc; not_in_list Hact.
  - apply backfill_columns.
    cases_in_list Hc;
      first [right; in_list | left; apply Hsub; in_list].
Qed.

Lemma load_log_backfill_witness :
  exists df', load_log (Stored legacy_table) = Ok df' /\
    length (rows df') = 1%nat /\
    cell_at df' 0 "水泳(km)" = Some (VFloat F64.zero).
Proof.
  assert (Hw : full_width legacy_table) by (repeat constructor).
  destruct (load_log_backfill legacy_table Hw)
    as (df' & Hl & Hn & _ & Hz & _).
  exists df'. split; [exact Hl|]. split; [exact Hn|].
  apply Hz.
  - unfold activity_columns. in_list.
  - intros H. unfold legacy_table in H. cbn [columns] in H. not_in_list H.
  - unfold legacy_table. cbn [rows length]. lia.
Defined.

(** A stored table without the height column is loaded without it. *)
Lemma load_log_legacy_lacks_height :
  exists df', load_log (Stored legacy_table) = Ok df' /\
    ~ canonical_columns ⊆ columns df'.
Proof.
  eexists. split; [reflexivity|]. intros H.
  assert (Hin : "身長(m)" ∈ canonical_columns) by in_list.
  apply H in Hin. vm_compute in Hin. not_in_list Hin.
Qed.

(** ** Append and reload *)

Lemma concat_columns (df1 df2 : DataFrame) (c : string) :
  c ∈ columns (concat df1 df2) <-> c ∈ columns df1 \/ c ∈ columns df2.
Proof.
  unfold concat. cbn [columns]. rewrite elem_of_app, list_elem_of_filter.
  destruct (decide (c ∈ columns df1)); tauto.
Qed.

Lemma concat_length (df1 df2 : DataFrame) :
  length (rows (concat df1 df2)) = (length (rows df1) + length (rows df2))%nat.
Proof. unfold concat. cbn [rows]. now rewrite length_app, !length_fmap. Qed.

Lemma concat_keeps (df1 df2 : DataFrame) i c v :
  cell_at df1 i c = Some v -> cell_at (concat df1 df2) i c = Some v.
Proof.
  unfold cell_at. destruct (rows df1 !! i) as [r|] eqn:Hr; simpl; [|discriminate].
  intros Hc. pose proof (cell_Some_elem _ _ _ _ Hc) as Hin.
  unfold concat. cbn [rows columns].
  rewrite lookup_app_l by (rewrite length_fmap; eapply lookup_lt_Some; eassumption).
  rewrite list_lookup_fmap, Hr. simpl.
  rewrite cell_reindex by (apply elem_of_app; now left).
  now rewrite Hc.
Qed.

Lemma concat_record (df : DataFrame) (entry : dict) (k : string) (v : value) :
  dict_get k entry = Some v ->
  cell_at (concat df (frame_of_record entry)) (length (rows df)) k = Some v.
Proof.
  intros Hk. unfold cell_at, concat. cbn [rows columns frame_of_record].
  rewrite lookup_app_r by (rewrite length_fmap; lia).
  rewrite length_fmap, Nat.sub_diag. simpl.
  assert (Hin : k ∈ entry.*1).
  { apply (cell_Some_elem _ entry.*2 _ v). now rewrite cell_frame_of_record. }
  rewrite cell_reindex.
  - now rewrite cell_frame_of_record, Hk.
  - apply elem_of_app. destruct (decide (k ∈ columns df)); [now left|right].
    now apply list_elem_of_filter.
Qed.



(** Saving an entry and loading again gives the loaded table with the
    entry appended. *)
Lemma save_then_load (fs : file) (entry : dict) (df0 : DataFrame) :
  load_log fs = Ok df0 ->
  exists fs', save_log fs entry = Ok fs' /\
    load_log fs' = Ok (concat df0 (frame_of_record entry)).
Proof.
  intros Hl. unfold save_log. rewrite Hl. eexists. split; [reflexivity|].
  unfold load_log. f_equal. apply backfill_present.
  intros c Hc. apply concat_columns. left.
  now apply (load_log_activity fs df0 Hl).
Qed.



(** ** Trend chart *)

Lemma result_mapM_Ok {A B} (f : A -> result B) (l : list A) (bs : list B) :
  result_mapM f l = Ok bs <->
  length bs = length l /\
  forall i a, l !! i = Some a -> exists b, bs !! i = Some b /\ f a = Ok b.
Proof.
  revert bs. induction l as [|a l IH]; intros bs; simpl.
  - split.
    + intros [= <-]. split; [reflexivity|]. intros i a [=].
    + intros [Hlen _]. destruct bs; [reflexivity|discriminate].
  - split.
    + intros H. apply bind_Ok in H as (b & Hb & H).
      apply bind_Ok in H as (bs' & Hbs & [= <-]).
      apply IH in Hbs as [Hlen Hall]. split; [simpl; lia|].
      intros [|i] a'; simpl.
      * intros [= <-]. eauto.
      * apply Hall.
    + intros [Hlen Hall]. destruct bs as [|b bs]; [discriminate|].
      destruct (Hall 0%nat a eq_refl) as (b' & [= <-] & ->). simpl.
      assert (Hbs : result_mapM f l = Ok bs).
      { apply IH. split; [simpl in Hlen; lia|]. intros i a' Ha'.
        apply (Hall (S i) a' Ha'). }
      rewrite Hbs. reflexivity.
Qed.

Lemma result_mapM_total {A B} (f : A -> result B) (l : list A) :
  (forall a, a ∈ l -> exists b, f a = Ok b) -> exists bs, result_mapM f l = Ok bs.
Proof.
  induction l as [|a l IH]; intros H; simpl; [eauto|].
  destruct (H a ltac:(left)) as [b ->]. simpl.
  destruct IH as [bs ->]; [|simpl; eauto].
  intros a' Ha'. apply H. now right.
Qed.

Lemma column_values_Ok (df : DataFrame) (c : string) (vs : list value) :
  column_values df c = Ok vs ->
  c ∈ columns df /\
  vs = (fun r => default NaN (cell (columns df) r c)) <$> rows df.
Proof.
  unfold column_values. destruct (index_of c (columns df)) eqn:E; [|discriminate].
  intros [= <-]. split; [|reflexivity]. apply index_of_is_Some. eauto.
Qed.

Lemma column_values_elem (df : DataFrame) (c : string) :
  c ∈ columns df ->
  column_values df c = Ok ((fun r => default NaN (cell (columns df) r c)) <$> rows df).
Proof.
  intros Hin. apply index_of_is_Some in Hin as [j Hj].
  unfold column_values. now rewrite Hj.
Qed.

Section ChartProperties.

Context {datetime : Type} (to_datetime : value -> result datetime).

(** C9 (amended): the chart is drawn from the last ten rows of the log,
    or from all of them when there are fewer, in the order in which they
    are stored: point i comes from row n - (number of points) + i, with
    that row's timestamp and weight.  Nothing is sorted; the points are
    in ascending order of timestamp whenever the stored rows are.  The
    chart is produced whenever the log has the two columns and the
    timestamps of those rows can be read. *)
Theorem generate_bmi_plot_rows (df : DataFrame) :
  let n := length (rows df) in
  let stamp r := default NaN (cell (columns df) r "日時") in
  let kg r := default NaN (cell (columns df) r "体重(kg)") in
  (forall pts, generate_bmi_plot to_datetime df = Ok pts ->
     length pts = Nat.min 10 n /\
     (forall i pt, pts !! i = Some pt ->
        exists r, rows df !! (n - length pts + i)%nat = Some r /\
                  to_datetime (stamp r) = Ok pt.1 /\ pt.2 = kg r) /\
     (forall le : datetime -> datetime -> Prop,
        (forall i j ri rj ti tj, (i < j)%nat ->
           rows df !! i = Some ri -> rows df !! j = Some rj ->
           to_datetime (stamp ri) = Ok ti -> to_datetime (stamp rj) = Ok tj ->
           le ti tj) ->
        ascending le pts.*1)) /\
  ("日時" ∈ columns df -> "体重(kg)" ∈ columns df ->
   (forall r, r ∈ drop (n - 10) (rows df) ->
              exists t, to_datetime (stamp r) = Ok t) ->
   exists pts, generate_bmi_plot to_datetime df = Ok pts).
Proof.
  intros n stamp kg. split.
  - intros pts H. unfold generate_bmi_plot in H.
    apply bind_Ok in H as (xs & Hxs & H).
    apply bind_Ok in Hxs as (ts & Hts & Hxs).
    apply bind_Ok in H as (ys & Hys & [= <-]).
    apply column_values_Ok in Hts as [_ ->].
    apply column_values_Ok in Hys as [_ ->].
    cbn [df_tail rows columns] in *.
    change (result_mapM to_datetime (stamp <$> drop (n - 10) (rows df)) = Ok xs)
      in Hxs.
    change (zip xs ((fun r => default NaN (cell (columns df) r "体重(kg)"))
                      <$> drop (length (rows df) - 10) (rows df)))
      with (zip xs (kg <$> drop (n - 10) (rows df))).
    apply result_mapM_Ok in Hxs as [Hlen Hxs].
    rewrite length_fmap, length_drop in Hlen. fold n in Hlen.
    assert (Hlp : length (zip xs (kg <$> drop (n - 10) (rows df))) = Nat.min 10 n).
    { rewrite length_zip, length_fmap, length_drop. fold n. lia. }
    assert (Hpt : forall i pt,
              zip xs (kg <$> drop (n - 10) (rows df)) !! i = Some pt ->
              exists r, rows df !! (n - Nat.min 10 n + i)%nat = Some r /\
                        to_datetime (stamp r) = Ok pt.1 /\ pt.2 = kg r).
    { intros i [x y] Hi. apply lookup_zip_Some in Hi as [Hx Hy].
      rewrite list_lookup_fmap in Hy.
      destruct (drop (n - 10) (rows df) !! i) as [r|] eqn:Hr; [|discriminate].
      injection Hy as <-. exists r.
      destruct (Hxs i (stamp r)) as (b & Hb & Hf).
      { rewrite list_lookup_fmap, Hr. reflexivity. }
      rewrite lookup_drop in Hr.
      replace (n - Nat.min 10 n)%nat with (n - 10)%nat by lia.
      split; [exact Hr|]. split; [|reflexivity].
      simpl. congruence. }
    split; [exact Hlp|]. rewrite Hlp. split; [exact Hpt|].
    intros le Hsorted i j a b Hij Ha Hb.
    rewrite list_lookup_fmap in Ha, Hb.
    destruct (zip xs (kg <$> drop (n - 10) (rows df)) !! i) as [pa|] eqn:Ea;
      [|discriminate].
    destruct (zip xs (kg <$> drop (n - 10) (rows df)) !! j) as [pb|] eqn:Eb;
      [|discriminate].
    injection Ha as <-. injection Hb as <-.
    destruct (Hpt i pa Ea) as (ri & Hri & Hti & _).
    destruct (Hpt j pb Eb) as (rj & Hrj & Htj & _).
    apply (Hsorted (n - Nat.min 10 n + i)%nat (n - Nat.min 10 n + j)%nat ri rj);
      [lia|assumption..].
  - intros Hs Hk Hparse. unfold generate_bmi_plot.
    rewrite !column_values_elem by assumption.
    cbn [df_tail rows columns]. simpl.
    match goal with
    | |- context [result_mapM ?f ?l] =>
        destruct (result_mapM_total f l) as [xs ->]
    end; [|simpl; eauto].
    intros a Ha. apply list_elem_of_fmap in Ha as (r & -> & Hr).
    now apply Hparse.
Qed.

End ChartProperties.

Lemma generate_bmi_plot_rows_witness :
  exists pts,
    generate_bmi_plot stamp_to_datetime unsorted_log = Ok pts /\
    length pts = 2%nat.
Proof.
  destruct (generate_bmi_plot_rows stamp_to_datetime unsorted_log) as [H1 H2].
  destruct H2 as [pts Hpts].
  - unfold unsorted_log. cbn [columns]. in_list.
  - unfold unsorted_log. cbn [columns]. in_list.
  - intros r Hr. unfold unsorted_log in Hr. cbn [rows length drop Nat.sub] in Hr.
    cases_in_list Hr; eexists; reflexivity.
  - exists pts. split; [exact Hpts|].
    destruct (H1 pts Hpts) as [Hlen _]. exact Hlen.
Defined.

(** On a log whose rows are not in order of time the chart gets its points
    out of order as well. *)
Lemma generate_bmi_plot_unsorted :
  exists pts, generate_bmi_plot stamp_to_datetime unsorted_log = Ok pts /\
    ~ ascending Z.le pts.*1.
Proof.
  eexists. split; [vm_compute; reflexivity|].
  intros H.
  specialize (H 0%nat 1%nat 202401021000%Z 202401011000%Z ltac:(lia) eq_refl eq_refl).
  lia.
Qed.

(** ** Report *)

(** The re-judgment on a row of numbers agrees with the diagnosis of the
    row's measurements on weight and waist, and judges the BMI that the
    row stores. *)
Lemma pdf_rejudge_row (df : DataFrame) (latest : Series)
    (height weight waist bmi : float) (gender : value) (d : Diagnosis) :
  iloc_last df = Ok latest ->
  series_get latest "体重(kg)" = Ok (VFloat weight) ->
  series_get latest "腹囲(cm)" = Ok (VFloat waist) ->
  series_get latest "身長(m)" = Ok (VFloat height) ->
  series_get latest "BMI" = Ok (VFloat bmi) ->
  series_get latest "性別" = Ok gender ->
  diagnose height weight waist gender = Ok d ->
  pdf_rejudge df = Ok {| j_weight_msg := d_weight_msg d;
                         j_bmi_msg := bmi_msg bmi;
                         j_waist_msg := d_waist_msg d |}.
Proof.
  intros Hl Hw Hwa Hh Hb Hg Hd.
  apply diagnose_Ok in Hd as (h2 & Hh2 & _ & ->).
  unfold pdf_rejudge. rewrite Hl. simpl.
  rewrite Hw, Hwa, Hh, Hb, Hg. simpl. rewrite Hh2. reflexivity.
Qed.

Lemma iloc_last_concat_record (df : DataFrame) (entry : dict) :
  iloc_last (concat df (frame_of_record entry)) =
  Ok {| index := columns (concat df (frame_of_record entry));
        values := reindex entry.*1 (columns (concat df (frame_of_record entry)))
                    entry.*2 |}.
Proof.
  unfold iloc_last. unfold concat at 1. cbn [rows frame_of_record].
  rewrite fmap_cons, fmap_nil, last_snoc. reflexivity.
Qed.

Lemma series_get_concat_record (df : DataFrame) (entry : dict) (k : string) (v : value) :
  dict_get k entry = Some v ->
  series_get {| index := columns (concat df (frame_of_record entry));
                values := reindex entry.*1
                            (columns (concat df (frame_of_record entry)))
                            entry.*2 |} k = Ok v.
Proof.
  intros Hk. unfold series_get. cbn [index values].
  rewrite cell_reindex.
  - now rewrite cell_frame_of_record, Hk.
  - apply concat_columns. right. cbn [frame_of_record columns].
    apply (cell_Some_elem _ entry.*2 _ v). now rewrite cell_frame_of_record.
Qed.

(** C8 (amended): the report re-derives its three judgments from the fields
    of the latest row.  The weight and waist judgments are those the
    diagnosis gives for the row's height, weight, waist and gender; the BMI
    judgment is the BMI rule applied to the BMI that the row stores, which
    for a row written by the app is the diagnosed BMI rounded to two
    decimals.  No judgment label is stored or read back. *)
Theorem pdf_rejudge_categories :
  (forall df latest height weight waist bmi gender d,
     iloc_last df = Ok latest ->
     series_get latest "体重(kg)" = Ok (VFloat weight) ->
     series_get latest "腹囲(cm)" = Ok (VFloat waist) ->
     series_get latest "身長(m)" = Ok (VFloat height) ->
     series_get latest "BMI" = Ok (VFloat bmi) ->
     series_get latest "性別" = Ok gender ->
     diagnose height weight waist gender = Ok d ->
     pdf_rejudge df = Ok {| j_weight_msg := d_weight_msg d;
                            j_bmi_msg := bmi_msg bmi;
                            j_waist_msg := d_waist_msg d |}) /\
  (forall fs now weight waist gender run bike swim fs' d,
     on_submit fs now weight waist gender run bike swim = Ok (fs', d) ->
     exists df, load_log fs' = Ok df /\
       pdf_rejudge df = Ok {| j_weight_msg := d_weight_msg d;
                              j_bmi_msg := bmi_msg (py_round2 (d_bmi d));
                              j_waist_msg := d_waist_msg d |}).
Proof.
  split; [exact pdf_rejudge_row|].
  intros fs now weight waist gender run bike swim fs' d H.
  unfold on_submit in H.
  apply bind_Ok in H as (d' & Hd & H).
  apply bind_Ok in H as (fs'' & Hs & [= <- <-]).
  set (entry := log_entry now form_height weight waist (d_bmi d') gender run bike swim) in *.
  assert (exists df0, load_log fs = Ok df0) as [df0 Hl0].
  { unfold save_log in Hs. destruct (load_log fs); [eauto|discriminate]. }
  destruct (save_then_load fs entry df0 Hl0) as (fs1 & Hs1 & Hl1).
  rewrite Hs in Hs1. injection Hs1 as <-.
  eexists. split; [exact Hl1|].
  eapply pdf_rejudge_row.
  - apply iloc_last_concat_record.
  - apply series_get_concat_record. reflexivity.
  - apply series_get_concat_record. reflexivity.
  - apply series_get_concat_record. reflexivity.
  - apply series_get_concat_record. reflexivity.
  - apply series_get_concat_record. reflexivity.
  - exact Hd.
Qed.

Lemma pdf_rejudge_categories_witness :
  exists fs' d df,
    on_submit Absent "2024-01-05 09:30" (F64.dec 660 1) (F64.dec 830 1) "男性"
      F64.zero F64.zero F64.zero = Ok (fs', d) /\
    load_log fs' = Ok df /\
    pdf_rejudge df = Ok {| j_weight_msg := d_weight_msg d;
                           j_bmi_msg := bmi_msg (py_round2 (d_bmi d));
                           j_waist_msg := d_waist_msg d |}.
Proof.
  eexists _, _.
  assert (Hs : on_submit Absent "2024-01-05 09:30" (F64.dec 660 1)
                 (F64.dec 830 1) "男性" F64.zero F64.zero F64.zero
               = Ok (_, _)) by reflexivity.
  destruct (proj2 pdf_rejudge_categories _ _ _ _ _ _ _ _ _ _ Hs)
    as (df & Hl & Hj).
  exists df. split; [exact Hs|]. split; [exact Hl|exact Hj].
Defined.

(** With height 1.73 and weight 55.36 the BMI is about 18.497: the diagnosis
    says underweight, the stored BMI is 18.5 and the report says normal. *)
Lemma pdf_rejudge_rounded_bmi_differs :
  exists fs' d df j,
    on_submit Absent "2024-01-05 09:30" (F64.dec 5536 2) (F64.dec 830 1) "男性"
      F64.zero F64.zero F64.zero = Ok (fs', d) /\
    load_log fs' = Ok df /\
    pdf_rejudge df = Ok j /\
    d_bmi_msg d = "やせ型" /\ j_bmi_msg j = "標準体型" /\
    j_bmi_msg j <> d_bmi_msg d.
Proof.
  do 4 eexists. split; [vm_compute; reflexivity|].
  split; [vm_compute; reflexivity|].
  split; [vm_compute; reflexivity|].
  split; [reflexivity|]. split; [reflexivity|]. discriminate.
Qed.

(** * Further properties *)

(** ** Monotonicity of the judgments *)

Lemma SFcompare_le_lt_trans (x y z : float) :
  SFleb x y = true -> SFcompare y z = Some Lt -> SFcompare x z = Some Lt.
Proof.
  unfold SFleb.
  destruct x as [[]|[]| |[] m1 e1], y as [[]|[]| |[] m2 e2], z as [[]|[]| |[] m3 e3];
    simpl; try congruence.
  all: rewrite ?Pos.compare_cont_spec; simpl.
  all: destruct (Z.compare_spec e1 e2), (Z.compare_spec e2 e3), (Z.compare_spec e1 e3);
    try congruence; try lia.
  all: destruct (Pos.compare_spec m1 m2), (Pos.compare_spec m2 m3), (Pos.compare_spec m1 m3);
    simpl; try congruence; try lia.
Qed.

Lemma leb_ltb_trans (x y z : float) :
  (x <=? y)%F = true -> (y <? z)%F = true -> (x <? z)%F = true.
Proof.
  unfold F64.ltb, SFltb. intros Hxy Hyz.
  destruct (SFcompare y z) as [[]|] eqn:E; try discriminate.
  now rewrite (SFcompare_le_lt_trans x y z Hxy E).
Qed.

(** X1: a larger BMI never gets a lighter label: the rank of the BMI label
    is monotone in the BMI. *)
Theorem bmi_msg_monotone (bmi1 bmi2 : float) :
  (bmi1 <=? bmi2)%F = true ->
  bmi_rank (bmi_msg bmi1) <= bmi_rank (bmi_msg bmi2).
Proof.
  intros H. unfold bmi_msg.
  destruct (bmi2 <? c18_5)%F eqn:E1.
  { rewrite (leb_ltb_trans _ _ _ H E1). reflexivity. }
  destruct (bmi2 <? c25)%F eqn:E2.
  { rewrite (leb_ltb_trans _ _ _ H E2). destruct (bmi1 <? c18_5)%F; vm_compute; lia. }
  destruct (bmi2 <? c30)%F eqn:E3.
  { rewrite (leb_ltb_trans _ _ _ H E3).
    destruct (bmi1 <? c18_5)%F, (bmi1 <? c25)%F; vm_compute; lia. }
  destruct (bmi1 <? c18_5)%F, (bmi1 <? c25)%F, (bmi1 <? c30)%F; vm_compute; lia.
Qed.

Lemma bmi_msg_monotone_witness :
  bmi_rank (bmi_msg (F64.dec 2206 2)) <= bmi_rank (bmi_msg (F64.dec 3008 2)).
Proof. apply bmi_msg_monotone. reflexivity. Defined.

(** X2: for one gender, a waist judged normal stays normal when it gets
    smaller; so a larger waist never turns a risk judgment into normal. *)
Theorem waist_msg_monotone (waist1 waist2 : float) (gender : value) :
  (waist1 <=? waist2)%F = true ->
  waist_msg waist2 gender = "正常" -> waist_msg waist1 gender = "正常".
Proof.
  intros H. unfold waist_msg.
  destruct (py_eq_str gender "男性").
  - destruct (waist2 <? c85)%F eqn:E; [|discriminate].
    now rewrite (leb_ltb_trans _ _ _ H E).
  - destruct (waist2 <? c90)%F eqn:E; [|discriminate].
    now rewrite (leb_ltb_trans _ _ _ H E).
Qed.

Lemma waist_msg_monotone_witness :
  waist_msg (F64.dec 800 1) (VStr "男性") = "正常".
Proof.
  apply (waist_msg_monotone (F64.dec 800 1) (F64.dec 830 1)); reflexivity.
Defined.

(** X3: the male threshold is the strictest: a waist that is normal for
    the male label is normal for every gender value. *)
Theorem waist_msg_male_strictest (waist : float) (gender : value) :
  waist_msg waist (VStr "男性") = "正常" -> waist_msg waist gender = "正常".
Proof.
  assert (H8590 : (c85 <? c90)%F = true) by reflexivity.
  assert (Hm : waist_msg waist (VStr "男性") =
               if (waist <? c85)%F then "正常" else "メタボの可能性あり")
    by reflexivity.
  rewrite Hm. unfold waist_msg.
  destruct (waist <? c85)%F eqn:E; [|discriminate]. intros _.
  destruct (py_eq_str gender "男性"); [reflexivity|].
  now rewrite (ltb_trans _ _ _ E H8590).
Qed.

Lemma waist_msg_male_strictest_witness :
  waist_msg (F64.dec 830 1) (VStr "女性") = "正常".
Proof. apply waist_msg_male_strictest. reflexivity. Defined.

(** ** Signs of the computed quantities *)

(** Rounding a non-negative mantissa gives a zero, a finite number or an
    infinity of the given sign. *)
Lemma binary_round_aux_cases (s : bool) (m e : Z) (l : location) :
  (0 <= m)%Z ->
  binary_round_aux F64.prec F64.emax s m e l = S754_zero s \/
  binary_round_aux F64.prec F64.emax s m e l = S754_infinity s \/
  exists m' e', binary_round_aux F64.prec F64.emax s m e l = S754_finite s m' e'.
Proof.
  intros Hm. unfold binary_round_aux.
  destruct (shr_fexp_spec m e l Hm) as [A1 _].
  destruct (shr_fexp F64.prec F64.emax m e l) as [mrs1 e1]. simpl in A1.
  pose proof (round_nearest_even_bounds mrs1) as B.
  assert (H1 : (0 <= shr_m mrs1)%Z).
  { rewrite A1. apply Z.div_pos; [lia|]. apply pow2_pos. lia. }
  set (m2 := round_nearest_even (shr_m mrs1) (loc_of_shr_record mrs1)) in *.
  destruct (shr_fexp_spec m2 e1 loc_Exact ltac:(lia)) as [C1 _].
  destruct (shr_fexp F64.prec F64.emax m2 e1 loc_Exact) as [mrs3 e3]. simpl in C1.
  assert (H3 : (0 <= shr_m mrs3)%Z).
  { rewrite C1. apply Z.div_pos; [lia|]. apply pow2_pos. lia. }
  destruct (shr_m mrs3) as [|p|p]; [auto| |lia].
  destruct (e3 <=? F64.emax - F64.prec)%Z; eauto.
Qed.

Lemma square_unsigned (x : float) : unsigned (x * x)%F.
Proof.
  destruct x as [[]|[]| |s m e]; try reflexivity.
  unfold F64.mul, SFmul.
  destruct (binary_round_aux_cases (xorb s s) (Zpos (m * m)) (e + e) loc_Exact
              ltac:(lia)) as [-> | [-> | (m' & e' & ->)]];
    simpl; now destruct s.
Qed.

Lemma mul_unsigned (x y : float) :
  unsigned x -> unsigned y -> unsigned (x * y)%F.
Proof.
  destruct x as [sx|sx| |sx mx ex], y as [sy|sy| |sy my ey]; simpl;
    try tauto; try (intros -> ->; reflexivity).
  intros -> ->. unfold F64.mul, SFmul.
  destruct (binary_round_aux_cases (xorb false false) (Zpos (mx * my)) (ex + ey)
              loc_Exact ltac:(lia)) as [-> | [-> | (m' & e' & ->)]];
    reflexivity.
Qed.

Lemma unsigned_not_negative (x : float) : unsigned x -> (x <? F64.zero)%F = false.
Proof. destruct x as [s|s| |s m e]; simpl; try intros ->; reflexivity. Qed.

Lemma div_not_negative (x y : float) :
  (F64.zero <=? x)%F = true -> unsigned y -> (x / y <? F64.zero)%F = false.
Proof.
  destruct x as [[]|[]| |[] mx ex], y as [sy|sy| |sy my ey]; simpl;
    try discriminate; try (intros _ ->; reflexivity); try reflexivity.
  intros _ ->. unfold F64.div, SFdiv.
  destruct (SFdiv_core_binary F64.prec F64.emax (Zpos mx) ex (Zpos my) ey)
    as [[mz ez] lz] eqn:E.
  assert (Hmz : (0 <= mz)%Z).
  { unfold SFdiv_core_binary in E.
    set (s := (ex - ey - _)%Z) in E.
    set (m' := match s with Zpos _ => _ | Z0 => _ | Zneg _ => _ end) in E.
    assert (0 <= m')%Z.
    { subst m'. destruct s; try lia. apply Z.shiftl_nonneg. lia. }
    pose proof (Z.div_pos m' (Zpos my) ltac:(lia) ltac:(lia)) as Hq.
    unfold Z.div in Hq. destruct (Z.div_eucl m' (Zpos my)) as [q r].
    injection E as <- _ _. exact Hq. }
  cbn [xorb].
  destruct (binary_round_aux_cases false mz ez lz Hmz)
    as [-> | [-> | (m' & e' & ->)]]; reflexivity.
Qed.

(** X4: the ideal weight is never negative, whatever the height, and the
    BMI of a non-negative weight is never negative. *)
Theorem diagnose_not_negative (height weight waist : float) (gender : value)
    (d : Diagnosis) :
  diagnose height weight waist gender = Ok d ->
  (d_ideal_weight d <? F64.zero)%F = false /\
  ((F64.zero <=? weight)%F = true -> (d_bmi d <? F64.zero)%F = false).
Proof.
  intros H. apply diagnose_Ok in H as (h2 & Hh2 & Hbmi & ->).
  apply float_pow2_Ok in Hh2 as ->. cbn [d_ideal_weight d_bmi]. split.
  - apply unsigned_not_negative, mul_unsigned; [reflexivity|apply square_unsigned].
  - intros Hw. unfold float_truediv in Hbmi.
    destruct (height * height)%F eqn:E; try discriminate;
      injection Hbmi as <-; rewrite <- E; apply div_not_negative;
      try assumption; apply square_unsigned.
Qed.

Lemma diagnose_not_negative_witness :
  exists d,
    diagnose (F64.dec (-173) 2) (F64.dec 660 1) (F64.dec 830 1) (VStr "男性") = Ok d /\
    (d_bmi d <? F64.zero)%F = false.
Proof.
  eexists. split; [reflexivity|].
  eapply (diagnose_not_negative (F64.dec (-173) 2) (F64.dec 660 1)
            (F64.dec 830 1) (VStr "男性")); reflexivity.
Defined.

(** ** Weight equal to the ideal weight *)

(** X5: a finite, non-negative weight that equals the ideal weight is
    judged "hyoujun" (normal). *)
Theorem weight_msg_at_ideal (x : float) :
  (F64.zero <=? x)%F = true -> (x <? S754_infinity false)%F = true ->
  weight_msg x x = "標準体型".
Proof.
  intros H0 Hfin. unfold weight_msg.
  assert (Hd : F64.abs (x - x)%F = S754_zero false).
  { destruct x as [[]|[]| |[] m e]; try discriminate; try reflexivity.
    unfold F64.sub, SFsub. rewrite Z.sub_diag. reflexivity. }
  rewrite Hd.
  assert (Hle : (S754_zero false <=? x * c0_1)%F = true); [|now rewrite Hle].
  destruct x as [[]|[]| |[] m e]; try discriminate; try reflexivity.
  unfold F64.mul, SFmul.
  change c0_1 with (S754_finite false 7205759403792794 (-56)).
  cbv iota beta.
  destruct (binary_round_aux_cases (xorb false false)
              (Zpos (m * 7205759403792794)) (e + -56) loc_Exact ltac:(lia))
    as [-> | [-> | (m' & e' & ->)]]; reflexivity.
Qed.

Lemma weight_msg_at_ideal_witness :
  weight_msg (F64.dec 6583 2) (F64.dec 6583 2) = "標準体型".
Proof. apply weight_msg_at_ideal; reflexivity. Defined.

(** ** The log keeps its shape *)

Ltac nodup_list :=
  repeat (apply NoDup_cons_2; [let H := fresh in intros H; not_in_list H|]);
  apply NoDup_nil_2.

Lemma backfill_column_NoDup (df : DataFrame) (col : string) :
  NoDup (columns df) -> NoDup (columns (backfill_column df col)).
Proof.
  unfold backfill_column. case_bool_decide as Hc; simpl; [|trivial].
  intros Hnd. apply NoDup_app. split; [assumption|]. split.
  - intros x Hx Hin. apply list_elem_of_singleton in Hin as ->. contradiction.
  - apply NoDup_singleton.
Qed.

Lemma backfill_NoDup (cols : list string) (df : DataFrame) :
  NoDup (columns df) -> NoDup (columns (foldl backfill_column df cols)).
Proof.
  revert df. induction cols as [|col cs IH]; intros df; simpl; [trivial|].
  intros H. apply IH. now apply backfill_column_NoDup.
Qed.

Lemma concat_wf (df1 df2 : DataFrame) :
  NoDup (columns df1) -> NoDup (columns df2) -> wf (concat df1 df2).
Proof.
  intros H1 H2. split.
  - unfold concat. cbn [columns]. apply NoDup_app. split; [assumption|]. split.
    + intros x Hx Hin. apply list_elem_of_filter in Hin as [Hnin _]. contradiction.
    + now apply NoDup_filter.
  - unfold full_width, concat. cbn [rows columns].
    apply Forall_app. split; apply Forall_fmap, Forall_true; intros r;
      unfold reindex; simpl; now rewrite length_fmap.
Qed.

Lemma log_entry_NoDup now height weight waist bmi gender run bike swim :
  NoDup (log_entry now height weight waist bmi gender run bike swim).*1.
Proof. cbn. nodup_list. Qed.

Lemma load_log_keeps_wf (fs : file) (df : DataFrame) :
  file_wf fs -> load_log fs = Ok df -> wf df.
Proof.
  destruct fs as [| |df0]; cbn [file_wf load_log]; [|discriminate|].
  - intros _ [= <-]. split; [cbn; nodup_list|constructor].
  - intros [Hnd Hw] [= <-]. split.
    + now apply (backfill_NoDup activity_columns df0).
    + now apply (backfill_full_width activity_columns df0).
Qed.

(** X6: the log stays well-formed.  Loading a well-formed file gives a
    table with distinct columns and rows of full width, and a submit writes
    such a table again. *)
Theorem log_stays_wf :
  (forall fs df, file_wf fs -> load_log fs = Ok df -> wf df) /\
  (forall fs fs' now weight waist gender run bike swim d,
     file_wf fs ->
     on_submit fs now weight waist gender run bike swim = Ok (fs', d) ->
     file_wf fs').
Proof.
  split; [exact load_log_keeps_wf|].
  intros fs fs' now weight waist gender run bike swim d Hwf H.
  unfold on_submit in H.
  apply bind_Ok in H as (d' & _ & H).
  apply bind_Ok in H as (fs'' & Hs & [= <- <-]).
  unfold save_log in Hs. apply bind_Ok in Hs as (df0 & Hl & [= <-]).
  cbn [file_wf]. apply concat_wf.
  - now apply (load_log_keeps_wf fs df0 Hwf).
  - apply log_entry_NoDup.
Qed.

Lemma log_stays_wf_witness :
  exists fs' d,
    on_submit (Stored legacy_table) "2024-01-05 09:30" (F64.dec 660 1)
      (F64.dec 830 1) "男性" F64.zero F64.zero F64.zero = Ok (fs', d) /\
    file_wf fs'.
Proof.
  eexists _, _.
  assert (Hs : on_submit (Stored legacy_table) "2024-01-05 09:30"
                 (F64.dec 660 1) (F64.dec 830 1) "男性" F64.zero F64.zero
                 F64.zero = Ok (_, _)) by reflexivity.
  split; [exact Hs|].
  assert (Hw : file_wf (Stored legacy_table))
    by (split; [cbn; nodup_list|repeat constructor]).
  exact (proj2 log_stays_wf _ _ _ _ _ _ _ _ _ _ Hw Hs).
Defined.

(** X7: loading normalises once: a table that came out of [load_log],
    stored and loaded again, comes out unchanged. *)
Theorem load_log_idempotent (fs : file) (df : DataFrame) :
  load_log fs = Ok df -> load_log (Stored df) = Ok df.
Proof.
  intros H. unfold load_log at 1. f_equal. apply backfill_present.
  now apply (load_log_activity fs df).
Qed.

Lemma load_log_idempotent_witness :
  exists df, load_log (Stored legacy_table) = Ok df /\ load_log (Stored df) = Ok df.
Proof.
  eexists. split; [reflexivity|].
  apply (load_log_idempotent (Stored legacy_table)). reflexivity.
Defined.


(** X9: the first submit, on a missing file, writes the nine canonical
    columns in their order and one row with the inputs, the BMI rounded to
    two decimals. *)
Theorem on_submit_first (now : string) (weight waist : float) (gender : string)
    (run bike swim : float) :
  exists d,
    diagnose form_height weight waist (VStr gender) = Ok d /\
    on_submit Absent now weight waist gender run bike swim =
    Ok (Stored {| columns := canonical_columns;
                  rows := [[VStr now; VFloat form_height; VFloat weight;
                            VFloat waist; VFloat (py_round2 (d_bmi d));
                            VStr gender; VFloat run; VFloat bike;
                            VFloat swim]] |}, d).
Proof.
  eexists. split; [unfold diagnose; reflexivity|].
  unfold on_submit, diagnose. reflexivity.
Qed.

(** ** Two appends *)

(** X10: two appends add two rows, the first entry above the second, and
    keep every earlier cell. *)
Theorem save_log_twice (fs : file) (df0 : DataFrame) (e1 e2 : dict) :
  load_log fs = Ok df0 ->
  let n := length (rows df0) in
  exists fs1 fs2 df2,
    save_log fs e1 = Ok fs1 /\ save_log fs1 e2 = Ok fs2 /\
    load_log fs2 = Ok df2 /\
    length (rows df2) = S (S n) /\
    (forall k v, dict_get k e1 = Some v -> cell_at df2 n k = Some v) /\
    (forall k v, dict_get k e2 = Some v -> cell_at df2 (S n) k = Some v) /\
    (forall i c v, cell_at df0 i c = Some v -> cell_at df2 i c = Some v).
Proof.
  intros Hl n.
  destruct (save_then_load fs e1 df0 Hl) as (fs1 & Hs1 & Hl1).
  destruct (save_then_load fs1 e2 _ Hl1) as (fs2 & Hs2 & Hl2).
  exists fs1, fs2, (concat (concat df0 (frame_of_record e1)) (frame_of_record e2)).
  assert (Hlen : length (rows (concat df0 (frame_of_record e1))) = S n)
    by (rewrite concat_length; simpl; lia).
  split; [exact Hs1|]. split; [exact Hs2|]. split; [exact Hl2|].
  split; [rewrite concat_length, Hlen; simpl; lia|].
  split; [|split].
  - intros k v Hk. apply concat_keeps. now apply concat_record.
  - intros k v Hk. rewrite <- Hlen. now apply concat_record.
  - intros i c v Hc. now apply concat_keeps, concat_keeps.
Qed.

Lemma save_log_twice_witness :
  exists fs1 fs2 df2,
    save_log Absent [("日時", VStr "2024-01-05 09:30")] = Ok fs1 /\
    save_log fs1 [("日時", VStr "2024-01-06 09:30")] = Ok fs2 /\
    load_log fs2 = Ok df2 /\
    cell_at df2 0 "日時" = Some (VStr "2024-01-05 09:30") /\
    cell_at df2 1 "日時" = Some (VStr "2024-01-06 09:30").
Proof.
  destruct (save_log_twice Absent _ [("日時", VStr "2024-01-05 09:30")]
              [("日時", VStr "2024-01-06 09:30")] eq_refl)
    as (fs1 & fs2 & df2 & H1 & H2 & H3 & _ & H4 & H5 & _).
  exists fs1, fs2, df2. split; [exact H1|]. split; [exact H2|].
  split; [exact H3|]. split; [apply H4|apply H5]; reflexivity.
Defined.

(** ** Failures of the report *)

Lemma series_get_Raise (s : Series) (k : string) (e : exn) :
  series_get s k = Raise e -> e = KeyError k /\ cell (index s) (values s) k = None.
Proof.
  unfold series_get. destruct (cell (index s) (values s) k); [discriminate|].
  intros [= <-]. auto.
Qed.

Lemma iloc_last_Ok (df : DataFrame) (latest : Series) :
  iloc_last df = Ok latest -> index latest = columns df.
Proof.
  unfold iloc_last. destruct (last (rows df)); [|discriminate].
  now intros [= <-].
Qed.

Lemma series_get_missing (s : Series) (k : string) :
  k ∉ index s -> series_get s k = Raise (KeyError k).
Proof.
  intros H. unfold series_get, cell.
  apply index_of_None in H. now rewrite H.
Qed.

(** X11: on a log with rows that lacks one of the five columns the report
    reads, the re-judgment raises KeyError for one of these columns. *)
Theorem pdf_rejudge_missing_column (df : DataFrame) (c : string) :
  rows df <> [] -> c ∈ report_columns -> c ∉ columns df ->
  exists k, pdf_rejudge df = Raise (KeyError k) /\ k ∈ report_columns.
Proof.
  intros Hrows Hc Hnin. unfold pdf_rejudge.
  destruct (iloc_last df) as [latest|e] eqn:Hl.
  2:{ unfold iloc_last in Hl. destruct (last (rows df)) eqn:E; [discriminate|].
      apply last_None in E. contradiction. }
  cbn [mbind result_bind].
  pose proof (iloc_last_Ok _ _ Hl) as Hidx. rewrite <- Hidx in Hnin.
  pose proof (series_get_missing latest c Hnin) as Hmiss.
  destruct (series_get latest "体重(kg)") as [v1|e1] eqn:E1; cbn [mbind result_bind].
  2:{ apply series_get_Raise in E1 as [-> _]. eexists. split; [reflexivity|in_list]. }
  destruct (series_get latest "腹囲(cm)") as [v2|e2] eqn:E2; cbn [mbind result_bind].
  2:{ apply series_get_Raise in E2 as [-> _]. eexists. split; [reflexivity|in_list]. }
  destruct (series_get latest "身長(m)") as [v3|e3] eqn:E3; cbn [mbind result_bind].
  2:{ apply series_get_Raise in E3 as [-> _]. eexists. split; [reflexivity|in_list]. }
  destruct (series_get latest "BMI") as [v4|e4] eqn:E4; cbn [mbind result_bind].
  2:{ apply series_get_Raise in E4 as [-> _]. eexists. split; [reflexivity|in_list]. }
  destruct (series_get latest "性別") as [v5|e5] eqn:E5; cbn [mbind result_bind].
  2:{ apply series_get_Raise in E5 as [-> _]. eexists. split; [reflexivity|in_list]. }
  exfalso. unfold report_columns in Hc. cases_in_list Hc; congruence.
Qed.

Lemma pdf_rejudge_missing_column_witness :
  exists df k,
    load_log (Stored legacy_table) = Ok df /\
    pdf_rejudge df = Raise (KeyError k).
Proof.
  exists (foldl backfill_column legacy_table activity_columns).
  destruct (pdf_rejudge_missing_column
              (foldl backfill_column legacy_table activity_columns) "身長(m)")
    as (k & Hk & _).
  - vm_compute. discriminate.
  - unfold report_columns. in_list.
  - intros H. vm_compute in H. not_in_list H.
  - exists k. split; [reflexivity|exact Hk].
Defined.



(** ** Chart *)

Lemma df_tail_app (cols : list string) (old recent : list (list value)) (n : nat) :
  n <= length recent ->
  df_tail n {| columns := cols; rows := old ++ recent |} =
  df_tail n {| columns := cols; rows := recent |}.
Proof.
  intros H. unfold df_tail. cbn [rows columns]. f_equal.
  rewrite length_app, drop_app_ge by lia. f_equal. lia.
Qed.

Section ChartMore.

Context {datetime : Type} (to_datetime : value -> result datetime).

(** X13: rows above the last ten do not reach the chart: with ten or more
    recent rows, older rows change neither its points nor its errors. *)
Theorem generate_bmi_plot_last_ten (cols : list string)
    (old recent : list (list value)) :
  10 <= length recent ->
  generate_bmi_plot to_datetime {| columns := cols; rows := old ++ recent |} =
  generate_bmi_plot to_datetime {| columns := cols; rows := recent |}.
Proof.
  intros H. unfold generate_bmi_plot. now rewrite (df_tail_app cols old recent 10 H).
Qed.

(** X14: a chart is produced only from a log that has the timestamp and
    the weight column and whose last ten rows all carry a readable
    timestamp; no row is skipped. *)
Theorem generate_bmi_plot_Ok (df : DataFrame) (pts : list (datetime * value)) :
  generate_bmi_plot to_datetime df = Ok pts ->
  "日時" ∈ columns df /\ "体重(kg)" ∈ columns df /\
  forall r, r ∈ drop (length (rows df) - 10) (rows df) ->
    exists t, to_datetime (default NaN (cell (columns df) r "日時")) = Ok t.
Proof.
  intros H. unfold generate_bmi_plot in H.
  apply bind_Ok in H as (xs & Hxs & H).
  apply bind_Ok in Hxs as (ts & Hts & Hxs).
  apply bind_Ok in H as (ys & Hys & _).
  apply column_values_Ok in Hts as [Hs ->].
  apply column_values_Ok in Hys as [Hk _].
  cbn [df_tail rows columns] in *.
  split; [exact Hs|]. split; [exact Hk|].
  intros r Hr. apply result_mapM_Ok in Hxs as [_ Hall].
  apply list_elem_of_lookup in Hr as [i Hi].
  destruct (Hall i (default NaN (cell (columns df) r "日時"))) as (t & _ & Ht).
  - rewrite list_lookup_fmap, Hi. reflexivity.
  - eauto.
Qed.

End ChartMore.

Lemma generate_bmi_plot_last_ten_witness :
  generate_bmi_plot stamp_to_datetime
    {| columns := columns unsorted_log;
       rows := rows unsorted_log ++ replicate 10 [VStr "2024-02-01 08:00"; VFloat c85] |} =
  generate_bmi_plot stamp_to_datetime
    {| columns := columns unsorted_log;
       rows := replicate 10 [VStr "2024-02-01 08:00"; VFloat c85] |}.
Proof. apply generate_bmi_plot_last_ten. cbn. lia. Defined.

Lemma generate_bmi_plot_Ok_witness :
  "日時" ∈ columns unsorted_log.
Proof.
  eapply (generate_bmi_plot_Ok stamp_to_datetime unsorted_log).
  vm_compute. reflexivity.
Defined.

(** ** The log section of the page *)

Lemma df_empty_false (df : DataFrame) :
  df_empty df = false -> rows df <> [] /\ columns df <> [].
Proof. unfold df_empty. destruct (rows df), (columns df); now intros. Qed.

Section LogSectionProperties.

Context {datetime : Type} (to_datetime : value -> result datetime).


(** X16: when the section shows records, the log is not empty, the table
    shown has the log's columns and its last ten rows at most, ending with
    the log's latest row; the report is there exactly when the button was
    pressed, made of that latest row, its re-judgment and the chart. *)
Theorem log_section_records (fs : file) (b : bool)
    (recent download : DataFrame) (report : option (Report (datetime:=datetime))) :
  log_section to_datetime fs b = Ok (Records recent download report) ->
  load_log fs = Ok download /\ rows download <> [] /\
  columns recent = columns download /\
  length (rows recent) = Nat.min 10 (length (rows download)) /\
  iloc_last recent = iloc_last download /\
  (b = false -> report = None) /\
  (b = true -> exists latest judgment points,
     iloc_last download = Ok latest /\
     pdf_rejudge download = Ok judgment /\
     generate_bmi_plot to_datetime download = Ok points /\
     report = Some {| report_fields := zip (index latest) (values latest);
                      report_judgment := judgment;
                      report_points := points |}).
Proof.
  unfold log_section. intros H.
  apply bind_Ok in H as (df & Hl & H).
  destruct (df_empty df) eqn:He; [discriminate|]. cbn [negb] in H.
  apply df_empty_false in He as [Hrows _].
  assert (Htail : length (rows (df_tail 10 df)) = Nat.min 10 (length (rows df)))
    by (unfold df_tail; cbn [rows]; rewrite length_drop; lia).
  assert (Hlast : iloc_last (df_tail 10 df) = iloc_last df).
  { unfold iloc_last, df_tail. cbn [rows columns].
    destruct (rows df) as [|r0 l] using rev_ind; [contradiction|].
    rewrite last_snoc, length_app.
    rewrite drop_app_le by (simpl; lia). now rewrite last_snoc. }
  destruct b.
  - apply bind_Ok in H as (latest & Hlat & H).
    apply bind_Ok in H as (j & Hj & H).
    apply bind_Ok in H as (pts & Hp & [= <- <- <-]).
    repeat split; try assumption; try reflexivity; [discriminate|].
    intros _. exists latest, j, pts. auto.
  - injection H as <- <- <-.
    repeat split; try assumption; try reflexivity. discriminate.
Qed.

(** X17: after a submit the section never shows the no-record notice. *)
Theorem log_section_after_submit (fs fs' : file) (now : string)
    (weight waist : float) (gender : string) (run bike swim : float)
    (d : Diagnosis) (b : bool) :
  on_submit fs now weight waist gender run bike swim = Ok (fs', d) ->
  log_section to_datetime fs' b <> Ok NoRecords.
Proof.
  intros H. unfold on_submit in H.
  apply bind_Ok in H as (d' & _ & H).
  apply bind_Ok in H as (fs'' & Hs & [= <- <-]).
  set (entry := log_entry now form_height weight waist (d_bmi d') gender
                  run bike swim) in *.
  assert (exists df0, load_log fs = Ok df0) as [df0 Hl0].
  { unfold save_log in Hs. destruct (load_log fs); [eauto|discriminate]. }
  destruct (save_then_load fs entry df0 Hl0) as (fs1 & Hs1 & Hl1).
  rewrite Hs in Hs1. injection Hs1 as <-.
  unfold log_section. rewrite Hl1. cbn [mbind result_bind].
  assert (He : df_empty (concat df0 (frame_of_record entry)) = false).
  { unfold df_empty.
    destruct (rows (concat df0 (frame_of_record entry))) as [|r l] eqn:Er.
    { apply (f_equal length) in Er. rewrite concat_length in Er.
      cbn in Er. lia. }
    destruct (columns (concat df0 (frame_of_record entry))) eqn:Ec;
      [|reflexivity].
    assert (Hin : "日時" ∈ columns (concat df0 (frame_of_record entry))).
    { apply concat_columns. right. cbn. in_list. }
    rewrite Ec in Hin. now apply elem_of_nil in Hin. }
  rewrite He. cbn [negb].
  destruct b; [|discriminate].
  destruct (iloc_last _); [|discriminate]. cbn [mbind result_bind].
  destruct (pdf_rejudge _); [|discriminate]. cbn [mbind result_bind].
  destruct (generate_bmi_plot _ _); discriminate.
Qed.

End LogSectionProperties.

Lemma log_section_records_witness :
  exists recent download,
    log_section stamp_to_datetime (Stored unsorted_log) false
      = Ok (Records recent download None) /\
    length (rows recent) = 2.
Proof.
  eexists _, _.
  assert (H : log_section stamp_to_datetime (Stored unsorted_log) false
              = Ok (Records _ _ None)) by reflexivity.
  split; [exact H|].
  destruct (log_section_records stamp_to_datetime _ _ _ _ _ H)
    as (_ & _ & _ & Hlen & _).
  exact Hlen.
Defined.

Lemma log_section_after_submit_witness :
  log_section stamp_to_datetime
    (Stored {| columns := canonical_columns;
               rows := [[VStr "2024-01-05 09:30"; VFloat form_height;
                         VFloat (F64.dec 660 1); VFloat (F64.dec 830 1);
                         VFloat (py_round2 (F64.dec 660 1 / (form_height * form_height))%F);
                         VStr "男性"; VFloat F64.zero; VFloat F64.zero;
                         VFloat F64.zero]] |}) true <> Ok NoRecords.
Proof.
  eapply (log_section_after_submit stamp_to_datetime Absent _ "2024-01-05 09:30"
            (F64.dec 660 1) (F64.dec 830 1) "男性" F64.zero F64.zero F64.zero).
  reflexivity.
Defined.

(** ** Columns after a submit *)

(** X18: after a submit the stored table has all nine canonical columns,
    also when the file before lacked some of them, and loading returns it
    as it is stored. *)
Theorem on_submit_canonical (fs fs' : file) (now : string)
    (weight waist : float) (gender : string) (run bike swim : float)
    (d : Diagnosis) :
  on_submit fs now weight waist gender run bike swim = Ok (fs', d) ->
  exists df, fs' = Stored df /\ canonical_columns ⊆ columns df /\
    load_log fs' = Ok df.
Proof.
  intros H. unfold on_submit in H.
  apply bind_Ok in H as (d' & _ & H).
  apply bind_Ok in H as (fs'' & Hs & [= <- <-]).
  set (entry := log_entry now form_height weight waist (d_bmi d') gender
                  run bike swim) in *.
  assert (exists df0, load_log fs = Ok df0) as [df0 Hl0].
  { unfold save_log in Hs. destruct (load_log fs); [eauto|discriminate]. }
  destruct (save_then_load fs entry df0 Hl0) as (fs1 & Hs1 & Hl1).
  rewrite Hs in Hs1. injection Hs1 as <-.
  unfold save_log in Hs. rewrite Hl0 in Hs. injection Hs as <-.
  eexists. split; [reflexivity|]. split; [|exact Hl1].
  intros c Hc. apply concat_columns. right. exact Hc.
Qed.

Lemma on_submit_canonical_witness :
  exists fs' d df,
    on_submit (Stored legacy_table) "2024-01-05 09:30" (F64.dec 660 1)
      (F64.dec 830 1) "男性" F64.zero F64.zero F64.zero = Ok (fs', d) /\
    fs' = Stored df /\ canonical_columns ⊆ columns df.
Proof.
  eexists _, _.
  assert (Hs : on_submit (Stored legacy_table) "2024-01-05 09:30"
                 (F64.dec 660 1) (F64.dec 830 1) "男性" F64.zero F64.zero
                 F64.zero = Ok (_, _)) by reflexivity.
  destruct (on_submit_canonical _ _ _ _ _ _ _ _ _ _ Hs) as (df & Hf & Hc & _).
  exists df. split; [exact Hs|]. split; [exact Hf|exact Hc].
Defined.
